(** * Training lifecycles of SuperCreateModel.py

    A shallow embedding of [Final_Model_Files/SuperCreateModel.py]: the two
    model lifecycles [TorchModel] and [SklearnModel], with their
    construction, training, evaluation, multi-epoch loop and checkpointing.

    Python objects are attribute dictionaries, so an instance is a
    [gmap string Val]; reading a missing attribute raises [AttributeError].
    Methods are computations in a state-and-exception monad over the
    instance and the outside world (random draws, the clock, and the calls
    made to collaborators, kept as a trace).

    Floats are modelled as rationals [Q]: the source only compares them
    ([>=]) and divides two integers, and every finite float is a rational
    with the same order.  The accuracy quotient is the exact one. *)

From Stdlib Require Import ZArith QArith String Ascii List Lia.
From stdpp Require Import base option list sorting gmap strings.

Set Warnings "-register-all".
Set Default Proof Using "Type".

Open Scope string_scope.
Open Scope Z_scope.

(** ** Collaborators

    [DatasetReader], the neural network with its loss and optimiser, and
    the scikit-learn estimator live outside this file of the repository.
    They are taken as an interface. *)

Record DatasetReader (Scaler : Type) := mkDataset {
  features : list (list Q);
  target : list Z;
  getScalar : Scaler
}.
Arguments mkDataset {Scaler}.
Arguments features {Scaler}.
Arguments target {Scaler}.
Arguments getScalar {Scaler}.

Class Collaborators := {
  Scaler : Type;
  Net : Type;
  LossFn : Type;
  Optimizer : Type;
  Estimator : Type;
  (** [DatasetReader(csv_file=.., undersample=.., scalar=..)]; an argument
      that the caller leaves out is [None].  The last argument is the
      random draw used by undersampling. *)
  read_dataset : string -> option bool -> option Scaler -> nat -> DatasetReader Scaler;
  (** the order in which a shuffling [DataLoader] visits its rows *)
  shuffle_rows : nat -> list (list Q * Z) -> list (list Q * Z);
  (** [model.train()] and [model.eval()] *)
  set_training : bool -> Net -> Net;
  (** [model(X)] for one row of a batch *)
  forward : Net -> list Q -> Q;
  torch_sigmoid : Q -> Q;
  (** [loss_fn(pred.squeeze(), y)] and [loss.item()] *)
  loss_value : LossFn -> list Q -> list Z -> Q;
  (** [optimizer.zero_grad(); loss.backward(); optimizer.step()] *)
  backward_step : LossFn -> Optimizer -> Net -> list (list Q) -> list Z -> Optimizer * Net;
  (** [model.fit(X, y)] *)
  fit : Estimator -> list (list Q) -> list Z -> Estimator;
  (** [model.predict_proba(X)]: one row of class probabilities per sample *)
  predict_proba : Estimator -> list (list Q) -> list (list Q);
  (** [model.predict(X)]: one raw label per sample *)
  predict : Estimator -> list (list Q) -> list Z;
  (** [RandomForestClassifier(n_estimators=100, class_weight='balanced',
      oob_score=True, n_jobs=-1, random_state=42)] *)
  RandomForestClassifier : Estimator;
  (** [time.localtime()] at the n-th observation of the outside world *)
  localtime : nat -> Z * Z * Z * Z * Z * Z
}.

(** ** Values, exceptions, the world *)

Record DataLoader `{Collaborators} := mkLoader {
  dataset : DatasetReader Scaler;
  batch_size : positive;
  shuffle : bool
}.
Arguments mkLoader {_} _ _ _.

Inductive Val `{Collaborators} :=
  | VNone
  | VNotImplemented
  | VBool (b : bool)
  | VInt (z : Z)
  | VFloat (q : Q)
  | VStr (s : string)
  | VList (l : list Val)
  | VDict (d : gmap string Val)
  | VLabels (y : list Z)
  | VTensor (x : list Q)
  | VFeatures (X : list (list Q))
  | VMatrix (cm : list (list Z))
  | VDataset (d : DatasetReader Scaler)
  | VLoader (l : DataLoader)
  | VScaler (s : Scaler)
  | VNet (n : Net)
  | VLossFn (f : LossFn)
  | VOptimizer (o : Optimizer)
  | VDevice (d : string)
  | VEstimator (e : Estimator).

Inductive Exn :=
  | AttributeError (name : string)
  | ValueError (msg : string)
  | TypeError
  | IndexError
  | ZeroDivisionError.

Inductive Res (A : Type) :=
  | Ok (a : A)
  | Raise (e : Exn).
Arguments Ok {A}.
Arguments Raise {A}.

(** Calls that leave the lifecycle object. *)
Inductive Event `{Collaborators} :=
  | EPrint (template : string) (args : list Val)
  | ENewDataset (csv_file : string) (undersample : option bool)
                (scalar : option Scaler) (made : DatasetReader Scaler)
  | EIterate (loader : DataLoader)
  | ETorchSave (obj : gmap string Val) (file_name : string)
  | EJoblibDump (obj : gmap string Val) (file_name : string)
  | EPlotCM (cms : Val) (titles : Val).

Record State `{Collaborators} := mkState {
  self : gmap string Val;
  tick : nat;
  trace : list Event
}.
Arguments mkState {_} _ _ _.

Section Monad.
Context `{Collaborators}.

Definition M (A : Type) : Type := State -> Res A * State.

Definition ret {A} (a : A) : M A := fun st => (Ok a, st).

Definition bind {A B} (m : M A) (k : A -> M B) : M B :=
  fun st => match m st with
            | (Ok a, st') => k a st'
            | (Raise e, st') => (Raise e, st')
            end.

Definition raise {A} (e : Exn) : M A := fun st => (Raise e, st).

Definition lift {A} (r : Res A) : M A := fun st => (r, st).

Definition getattr (name : string) : M Val :=
  fun st => match self st !! name with
            | Some v => (Ok v, st)
            | None => (Raise (AttributeError name), st)
            end.

Definition setattr (name : string) (v : Val) : M unit :=
  fun st => (Ok tt, mkState (<[name := v]> (self st)) (tick st) (trace st)).

Definition emit (e : Event) : M unit :=
  fun st => (Ok tt, mkState (self st) (tick st) (trace st ++ [e])).

(** One observation of the outside world (a random draw, a clock read). *)
Definition observe : M nat :=
  fun st => (Ok (tick st), mkState (self st) (S (tick st)) (trace st)).

Fixpoint for_each {A} (l : list A) (body : A -> M unit) : M unit :=
  match l with
  | [] => ret tt
  | x :: l' => bind (body x) (fun _ => for_each l' body)
  end.
End Monad.

Notation "x <~ m ;; k" := (bind m (fun x => k))
  (at level 100, m at next level, right associativity,
   format "'[v' x  <~  m ;; '/' k ']'").
Notation "m ;;; k" := (bind m (fun _ => k))
  (at level 100, right associativity, format "'[v' m ;;; '/' k ']'").

(** ** Library functions used by the lifecycles *)

(** *** Reading attributes at the type the code uses them at *)

Section Casts.
Context `{Collaborators}.

Definition as_float (v : Val) : Res Q :=
  match v with
  | VFloat q => Ok q
  | VInt z => Ok (inject_Z z)
  | _ => Raise TypeError
  end.

Definition as_int (v : Val) : Res Z :=
  match v with VInt z => Ok z | _ => Raise TypeError end.

(** Only strings are formatted into file names; the formatting of other
    objects is not modelled. *)
Definition as_str (v : Val) : Res string :=
  match v with VStr s => Ok s | _ => Raise TypeError end.

Definition as_list (v : Val) : Res (list Val) :=
  match v with VList l => Ok l | _ => Raise TypeError end.

Definition as_labels (v : Val) : Res (list Z) :=
  match v with VLabels y => Ok y | _ => Raise TypeError end.

Definition as_features (v : Val) : Res (list (list Q)) :=
  match v with VFeatures X => Ok X | _ => Raise TypeError end.

Definition as_matrix (v : Val) : Res (list (list Z)) :=
  match v with VMatrix cm => Ok cm | _ => Raise TypeError end.

Definition as_dataset (v : Val) : Res (DatasetReader Scaler) :=
  match v with VDataset d => Ok d | _ => Raise TypeError end.

Definition as_loader (v : Val) : Res DataLoader :=
  match v with VLoader l => Ok l | _ => Raise TypeError end.

Definition as_scaler (v : Val) : Res Scaler :=
  match v with VScaler s => Ok s | _ => Raise TypeError end.

Definition as_net (v : Val) : Res Net :=
  match v with VNet n => Ok n | _ => Raise TypeError end.

Definition as_loss_fn (v : Val) : Res LossFn :=
  match v with VLossFn f => Ok f | _ => Raise TypeError end.

Definition as_optimizer (v : Val) : Res Optimizer :=
  match v with VOptimizer o => Ok o | _ => Raise TypeError end.

(** Truth value of [if self.supervised:]. *)
Definition truthy (v : Val) : bool :=
  match v with
  | VNone => false
  | VBool b => b
  | VInt z => negb (z =? 0)
  | VStr s => negb (String.eqb s "")
  | VList l => match l with [] => false | _ => true end
  | _ => true
  end.
End Casts.

(** *** [sklearn.metrics.confusion_matrix] and its indexing *)

Fixpoint insert_label (x : Z) (l : list Z) : list Z :=
  match l with
  | [] => [x]
  | y :: l' =>
      if x <? y then x :: l
      else if x =? y then l
      else y :: insert_label x l'
  end.

(** The sorted distinct labels of both vectors. *)
Definition unique_labels (y_true y_pred : list Z) : list Z :=
  foldr insert_label [] (y_true ++ y_pred).

Definition count_cell (y_true y_pred : list Z) (a p : Z) : Z :=
  Z.of_nat (length (List.filter (fun tp => (fst tp =? a) && (snd tp =? p))
                                (combine y_true y_pred))).

Definition confusion_matrix (y_true y_pred : list Z) : Res (list (list Z)) :=
  if Nat.eqb (length y_true) (length y_pred) then
    let labels := unique_labels y_true y_pred in
    Ok (map (fun a => map (fun p => count_cell y_true y_pred a p) labels) labels)
  else
    Raise (ValueError "Found input variables with inconsistent numbers of samples").

(** [cm[i, j]] *)
Definition cm_at (cm : list (list Z)) (i j : nat) : Res Z :=
  match cm !! i with
  | Some row => match row !! j with
                | Some c => Ok c
                | None => Raise IndexError
                end
  | None => Raise IndexError
  end.

(** [cm.sum()] *)
Definition cm_sum (cm : list (list Z)) : Z :=
  foldr Z.add 0 (map (foldr Z.add 0) cm).

(** [(cm[0, 0] + cm[1, 1]) / cm.sum()], in the order Python evaluates it. *)
Definition accuracy_of (cm : list (list Z)) : Res Q :=
  match cm_at cm 0 0 with
  | Ok tn => match cm_at cm 1 1 with
             | Ok tp => Ok (inject_Z (tn + tp) / inject_Z (cm_sum cm))%Q
             | Raise e => Raise e
             end
  | Raise e => Raise e
  end.

(** *** Thresholding *)

(** [(prob >= threshold)] as a 0/1 label. *)
Definition decide_label (threshold prob : Q) : Z :=
  if Qle_bool threshold prob then 1 else 0.

(** [np.where(y_raw == 1, 1, 0)] on one entry. *)
Definition where_one (raw : Z) : Z :=
  if raw =? 1 then 1 else 0.

(** *** [DataLoader] *)

Section Loader.
Context `{Collaborators}.

Definition rows (d : DatasetReader Scaler) : list (list Q * Z) :=
  combine (features d) (target d).

Fixpoint chunks {A} (fuel n : nat) (l : list A) : list (list A) :=
  match fuel, l with
  | O, _ => []
  | _, [] => []
  | S fuel', _ => take n l :: chunks fuel' n (drop n l)
  end.

(** Consecutive batches of [n] rows, the last one possibly shorter. *)
Definition batches {A} (n : positive) (l : list A) : list (list A) :=
  chunks (length l) (Pos.to_nat n) l.

Definition unzip_batch (b : list (list Q * Z)) : list (list Q) * list Z :=
  (map fst b, map snd b).

Definition new_DatasetReader (csv_file : string) (undersample : option bool)
    (scalar : option Scaler) : M (DatasetReader Scaler) :=
  n <~ observe;;
  let d := read_dataset csv_file undersample scalar n in
  emit (ENewDataset csv_file undersample scalar d);;;
  ret d.

Definition new_DataLoader (d : DatasetReader Scaler) (batch_size : Z)
    (shuffle : bool) : M DataLoader :=
  match batch_size with
  | Zpos p => ret (mkLoader d p shuffle)
  | _ => raise (ValueError "batch_size should be a positive integer value")
  end.

(** [for X, y in loader]: the batches one pass over the loader yields. *)
Definition iterate (l : DataLoader) : M (list (list (list Q) * list Z)) :=
  emit (EIterate l);;;
  order <~ (if shuffle l
            then (n <~ observe;; ret (shuffle_rows n (rows (dataset l))))
            else ret (rows (dataset l)));;
  ret (map unzip_batch (batches (batch_size l) order)).

(** [len(loader)]: the number of batches. *)
Definition len_loader (l : DataLoader) : Z :=
  (Z.of_nat (length (rows (dataset l))) + Zpos (batch_size l) - 1) / Zpos (batch_size l).
End Loader.

(** *** [time.strftime("%Y%m%d_%H%M%S")] *)

Definition digit (d : Z) : ascii := ascii_of_nat (48 + Z.to_nat d).

(** The [width] low-order decimal digits of [n]. *)
Fixpoint decimal (width : nat) (n : Z) : string :=
  match width with
  | O => ""
  | S w => decimal w (n / 10) ++ String (digit (n mod 10)) ""
  end.

(** Years are printed with four digits, as they are from 1000 to 9999. *)
Definition strftime_Ymd_HMS (t : Z * Z * Z * Z * Z * Z) : string :=
  let '(year, mon, mday, hour, min, sec) := t in
  decimal 4 year ++ decimal 2 mon ++ decimal 2 mday ++ "_" ++
  decimal 2 hour ++ decimal 2 min ++ decimal 2 sec.

Definition strftime `{Collaborators} : M string :=
  n <~ observe;;
  ret (strftime_Ymd_HMS (localtime n)).

(** [plotCM(cms, titles)] and [print(...)] only leave a mark in the trace.
    A printed f-string is kept as its template and the values formatted
    into it. *)
Definition plotCM `{Collaborators} (cms titles : Val) : M unit :=
  emit (EPlotCM cms titles).

Definition print `{Collaborators} (template : string) (args : list Val) : M unit :=
  emit (EPrint template args).

(** A constructor call runs [__init__] on a fresh, empty object. *)
Definition construct `{Collaborators} (init : M unit) : M unit :=
  fun st => init (mkState ∅ (tick st) (trace st)).

(** ** class TorchModel *)

Module TorchModel.
Section Methods.
Context `{Collaborators}.

Definition default_batch_size : Z := 64.
Definition default_threshold : Q := 1 # 2.

(** [super().__init__()] only sets up [nn.Module]'s own bookkeeping,
    which no method below reads. *)
Definition __init__ (train_file test_file : string) (batch_size : Z)
    (threshold : Q) : M unit :=
  setattr "train_file" (VStr train_file);;;
  setattr "batch_size" (VInt batch_size);;;
  tf <~ getattr "train_file";;
  csv <~ lift (as_str tf);;
  train_dataset <~ new_DatasetReader csv (Some true) None;;
  setattr "train_dataset" (VDataset train_dataset);;;
  bs <~ getattr "batch_size";;
  n <~ lift (as_int bs);;
  train_loader <~ new_DataLoader train_dataset n true;;
  setattr "train_loader" (VLoader train_loader);;;
  setattr "scalar" (VScaler (getScalar train_dataset));;;
  sc <~ getattr "scalar";;
  scalar <~ lift (as_scaler sc);;
  test_dataset <~ new_DatasetReader test_file None (Some scalar);;
  setattr "test_dataset" (VDataset test_dataset);;;
  test_loader <~ new_DataLoader test_dataset batch_size false;;
  setattr "test_loader" (VLoader test_loader);;;
  setattr "threshold" (VFloat threshold).

Definition epoch_banner : string :=
  "-------------------------------\nEpoch {}\n-------------------------------".

Definition initModel : M Val :=
  ret VNotImplemented.

Definition train_batch (b : list (list Q) * list Z) : M unit :=
  let '(X, y) := b in
  _ <~ getattr "device";;
  m <~ getattr "model";;
  net <~ lift (as_net m);;
  let pred := map (forward net) X in
  setattr "pred" (VTensor pred);;;
  lf <~ getattr "loss_fn";;
  loss_fn <~ lift (as_loss_fn lf);;
  let loss := loss_value loss_fn pred y in
  setattr "loss" (VFloat loss);;;
  o <~ getattr "optimizer";;
  optimizer <~ lift (as_optimizer o);;
  let '(optimizer', net') := backward_step loss_fn optimizer net X y in
  setattr "optimizer" (VOptimizer optimizer');;;
  setattr "model" (VNet net');;;
  rl <~ getattr "running_loss";;
  running_loss <~ lift (as_float rl);;
  setattr "running_loss" (VFloat (running_loss + loss)%Q).

Definition train : M unit :=
  m <~ getattr "model";;
  net <~ lift (as_net m);;
  setattr "model" (VNet (set_training true net));;;
  setattr "running_loss" (VFloat 0);;;
  tl <~ getattr "train_loader";;
  train_loader <~ lift (as_loader tl);;
  bs <~ iterate train_loader;;
  for_each bs train_batch;;;
  rl <~ getattr "running_loss";;
  running_loss <~ lift (as_float rl);;
  tl' <~ getattr "train_loader";;
  train_loader' <~ lift (as_loader tl');;
  if len_loader train_loader' =? 0 then raise ZeroDivisionError
  else setattr "train_loss"
         (VFloat (running_loss / inject_Z (len_loader train_loader'))%Q).

Definition test_batch (b : list (list Q) * list Z) : M unit :=
  let '(X, y) := b in
  _ <~ getattr "device";;
  m <~ getattr "model";;
  net <~ lift (as_net m);;
  let outputs := map (forward net) X in
  setattr "outputs" (VTensor outputs);;;
  t <~ getattr "threshold";;
  threshold <~ lift (as_float t);;
  let predicted := map (fun o => decide_label threshold (torch_sigmoid o)) outputs in
  setattr "predicted" (VLabels predicted);;;
  yp <~ getattr "y_pred";;
  y_pred <~ lift (as_labels yp);;
  setattr "y_pred" (VLabels (y_pred ++ predicted)).

Definition test : M unit :=
  m <~ getattr "model";;
  net <~ lift (as_net m);;
  setattr "model" (VNet (set_training false net));;;
  setattr "y_pred" (VLabels []);;;
  tl <~ getattr "test_loader";;
  test_loader <~ lift (as_loader tl);;
  bs <~ iterate test_loader;;
  for_each bs test_batch;;;
  td <~ getattr "test_dataset";;
  test_dataset <~ lift (as_dataset td);;
  yp <~ getattr "y_pred";;
  y_pred <~ lift (as_labels yp);;
  cm <~ lift (confusion_matrix (target test_dataset) y_pred);;
  setattr "cm" (VMatrix cm);;;
  accuracy <~ lift (accuracy_of cm);;
  setattr "accuracy" (VFloat accuracy).

(** The dictionary written holds the model as it is when saved. *)
Definition saveModel : M unit :=
  timestamp <~ strftime;;
  setattr "timestamp" (VStr timestamp);;;
  mt <~ getattr "model_type";;
  model_type <~ lift (as_str mt);;
  let file_name := model_type ++ "Model_" ++ timestamp ++ ".pth" in
  setattr "file_name" (VStr file_name);;;
  model <~ getattr "model";;
  threshold <~ getattr "threshold";;
  scalar <~ getattr "scalar";;
  let to_save : gmap string Val :=
    <["model" := model]> (<["threshold" := threshold]>
    (<["model_type" := VStr "PyTorch"]> (<["scalar" := scalar]> ∅))) in
  setattr "to_save" (VDict to_save);;;
  emit (ETorchSave to_save file_name).

Definition epoch (t : nat) : M unit :=
  print epoch_banner [VInt (Z.of_nat t + 1)];;;
  train;;;
  tl <~ getattr "train_loss";;
  print "Train Loss: {:>7f}" [tl];;;
  tf <~ getattr "train_file";;
  csv <~ lift (as_str tf);;
  sc <~ getattr "scalar";;
  scalar <~ lift (as_scaler sc);;
  train_dataset <~ new_DatasetReader csv (Some true) (Some scalar);;
  setattr "train_dataset" (VDataset train_dataset);;;
  bs <~ getattr "batch_size";;
  n <~ lift (as_int bs);;
  train_loader <~ new_DataLoader train_dataset n true;;
  setattr "train_loader" (VLoader train_loader);;;
  test;;;
  saveModel;;;
  l <~ getattr "cms";;
  cms <~ lift (as_list l);;
  cm <~ getattr "cm";;
  setattr "cms" (VList (cms ++ [cm])).

Definition commenceTraining : M unit :=
  setattr "cms" (VList []);;;
  e <~ getattr "epochs";;
  epochs <~ lift (as_int e);;
  for_each (seq 0 (Z.to_nat epochs)) epoch;;;
  cms <~ getattr "cms";;
  titles <~ getattr "titles";;
  plotCM cms titles.
End Methods.
End TorchModel.

(** ** class SklearnModel *)

Module SklearnModel.
Section Methods.
Context `{Collaborators}.

Definition default_threshold : Q := 1 # 2.

(** [self.model.<method>]: [None] and other objects have no such method. *)
Definition as_estimator (method : string) (v : Val) : Res Estimator :=
  match v with
  | VEstimator e => Ok e
  | _ => Raise (AttributeError method)
  end.

(** [proba[:, j]] *)
Fixpoint column (j : nat) (proba : list (list Q)) : Res (list Q) :=
  match proba with
  | [] => Ok []
  | row :: rest =>
      match row !! j with
      | None => Raise IndexError
      | Some q => match column j rest with
                  | Ok l => Ok (q :: l)
                  | Raise e => Raise e
                  end
      end
  end.

Definition __init__ (train_file test_file : string) (threshold : Q) : M unit :=
  setattr "train_file" (VStr train_file);;;
  setattr "test_file" (VStr test_file);;;
  train_dataset <~ new_DatasetReader train_file (Some true) None;;
  setattr "train_dataset" (VDataset train_dataset);;;
  setattr "X_train" (VFeatures (features train_dataset));;;
  setattr "y_train" (VLabels (target train_dataset));;;
  setattr "scalar" (VScaler (getScalar train_dataset));;;
  sc <~ getattr "scalar";;
  scalar <~ lift (as_scaler sc);;
  test_dataset <~ new_DatasetReader test_file None (Some scalar);;
  setattr "test_dataset" (VDataset test_dataset);;;
  setattr "X_test" (VFeatures (features test_dataset));;;
  setattr "y_test" (VLabels (target test_dataset));;;
  setattr "threshold" (VFloat threshold);;;
  setattr "supervised" (VBool true);;;
  setattr "model" VNone;;;
  setattr "titles" (VList [VStr "Model Training"]).

Definition train : M unit :=
  m <~ getattr "model";;
  match m with
  | VNone =>
      raise (ValueError
        "Model not defined. Please set self.model in subclass before training.")
  | _ =>
      model <~ lift (as_estimator "fit" m);;
      X <~ getattr "X_train";;
      X_train <~ lift (as_features X);;
      y <~ getattr "y_train";;
      y_train <~ lift (as_labels y);;
      setattr "model" (VEstimator (fit model X_train y_train))
  end.

Definition test : M unit :=
  s <~ getattr "supervised";;
  (if truthy s then
     m <~ getattr "model";;
     model <~ lift (as_estimator "predict_proba" m);;
     X <~ getattr "X_test";;
     X_test <~ lift (as_features X);;
     y_prob <~ lift (column 1 (predict_proba model X_test));;
     t <~ getattr "threshold";;
     threshold <~ lift (as_float t);;
     setattr "y_pred" (VLabels (map (decide_label threshold) y_prob))
   else
     m <~ getattr "model";;
     model <~ lift (as_estimator "predict" m);;
     X <~ getattr "X_test";;
     X_test <~ lift (as_features X);;
     let y_raw := predict model X_test in
     setattr "y_pred" (VLabels (map where_one y_raw)));;;
  yt <~ getattr "y_test";;
  y_test <~ lift (as_labels yt);;
  yp <~ getattr "y_pred";;
  y_pred <~ lift (as_labels yp);;
  cm <~ lift (confusion_matrix y_test y_pred);;
  setattr "cm" (VMatrix cm);;;
  accuracy <~ lift (accuracy_of cm);;
  setattr "accuracy" (VFloat accuracy).

Definition commenceTraining : M unit :=
  print "Training model..." [];;;
  train;;;
  print "Testing model..." [];;;
  test;;;
  a <~ getattr "accuracy";;
  accuracy <~ lift (as_float a);;
  print "Accuracy: {:.2f}%" [VFloat (accuracy * 100)%Q];;;
  cm <~ getattr "cm";;
  titles <~ getattr "titles";;
  plotCM (VList [cm]) titles.

Definition saveModel : M unit :=
  timestamp <~ strftime;;
  setattr "timestamp" (VStr timestamp);;;
  mt <~ getattr "model_type";;
  model_type <~ lift (as_str mt);;
  let file_name := model_type ++ "Model_" ++ timestamp ++ ".joblib" in
  setattr "file_name" (VStr file_name);;;
  model <~ getattr "model";;
  threshold <~ getattr "threshold";;
  mt' <~ getattr "model_type";;
  scalar <~ getattr "scalar";;
  let to_save : gmap string Val :=
    <["model" := model]> (<["threshold" := threshold]>
    (<["model_type" := mt']> (<["scalar" := scalar]> ∅))) in
  emit (EJoblibDump to_save file_name);;;
  print "Model saved to {}" [VStr file_name].
End Methods.
End SklearnModel.

(** ** The command-line entry point *)

Module RandomForestModel.
Section Methods.
Context `{Collaborators}.

Definition __init__ (train_file test_file : string) (threshold : Q) : M unit :=
  SklearnModel.__init__ train_file test_file threshold;;;
  setattr "model_type" (VStr "RandomForest");;;
  setattr "model" (VEstimator RandomForestClassifier);;;
  setattr "titles" (VList [VStr "Random Forest Confusion Matrix"]).
End Methods.
End RandomForestModel.

(** [main()] with the parsed [--train_file], [--test_file] and
    [--threshold]; [--model] has the single choice [random_forest]. *)
Definition main `{Collaborators} (train_file test_file : string)
    (threshold : Q) : M unit :=
  construct (RandomForestModel.__init__ train_file test_file threshold);;;
  SklearnModel.commenceTraining;;;
  SklearnModel.saveModel.

(** ** A small concrete world

    Enough of a world to run the lifecycles on: three tiny files, a
    network that adds a bias to the first feature, an estimator that
    reads the positive-class probability off the first feature. *)

Module Toy.
Definition csv (file : string) : list (list Q * Z) :=
  if String.eqb file "train.csv" then
    [([1 # 4], 0); ([3 # 4], 1); ([1 # 2], 1); ([1 # 8], 0)]
  else if String.eqb file "test.csv" then
    [([1 # 4], 0); ([3 # 4], 1); ([1 # 2], 0)]
  else if String.eqb file "frauds.csv" then
    [([3 # 4], 1); ([7 # 8], 1)]
  else [].

Definition first_feature (x : list Q) : Q :=
  match x with q :: _ => q | [] => 0%Q end.

#[export] Instance collaborators : Collaborators := {|
  Scaler := nat;
  Net := Q;
  LossFn := unit;
  Optimizer := nat;
  Estimator := nat;
  read_dataset file undersample scalar n :=
    let kept := match undersample with
                | Some true => drop (n mod 2)%nat (csv file)
                | _ => csv file
                end in
    mkDataset (map fst kept) (map snd kept)
              (match scalar with Some s => s | None => n end);
  shuffle_rows n l := rev l;
  set_training b net := net;
  forward net x := (first_feature x + net)%Q;
  torch_sigmoid q := q;
  loss_value f pred y := 1%Q;
  backward_step f o net X y := (S o, net);
  fit e X y := S e;
  predict_proba e X := map (fun x => [(1 - first_feature x)%Q; first_feature x]) X;
  predict e X := map (fun x => if Qle_bool (1 # 2) (first_feature x) then 1 else -1) X;
  RandomForestClassifier := O;
  localtime n := (2025, 5, 3, 2, 13, 50 + Z.of_nat n)
|}.

Definition boot : State := mkState ∅ 0 [].

(** A subclass of [TorchModel], set up the way the comments in
    [TorchModel.__init__] and [TorchModel.initModel] describe. *)
Definition NeuralNetwork (train_file test_file : string) (epochs : Z) : M unit :=
  TorchModel.__init__ train_file test_file TorchModel.default_batch_size
                      TorchModel.default_threshold;;;
  setattr "titles" (VList [VStr "Neural Network"]);;;
  setattr "model_type" (VStr "NeuralNetwork");;;
  setattr "model" (VNet 0%Q);;;
  setattr "loss_fn" (VLossFn tt);;;
  setattr "optimizer" (VOptimizer O);;;
  setattr "epochs" (VInt epochs);;;
  setattr "device" (VDevice "cpu").

(** A subclass of [SklearnModel] around an unsupervised estimator. *)
Definition IsolationForestModel (train_file test_file : string) : M unit :=
  SklearnModel.__init__ train_file test_file SklearnModel.default_threshold;;;
  setattr "model_type" (VStr "IsolationForest");;;
  setattr "supervised" (VBool false);;;
  setattr "model" (VEstimator O).

Definition after {A} (m : M A) : State := snd (m boot).

(** Instances to run the methods on. *)
Definition nn : State :=
  after (construct (NeuralNetwork "train.csv" "test.csv" 2)).
Definition nn_frauds : State :=
  after (construct (NeuralNetwork "train.csv" "frauds.csv" 1)).
Definition bare : State :=
  after (construct (SklearnModel.__init__ "train.csv" "test.csv" (1 # 2))).
Definition forest : State :=
  after (construct (RandomForestModel.__init__ "train.csv" "test.csv" (1 # 2));;;
         SklearnModel.train).
Definition forest_frauds : State :=
  after (construct (RandomForestModel.__init__ "train.csv" "frauds.csv" (1 # 2));;;
         SklearnModel.train).
Definition isolation : State :=
  after (construct (IsolationForestModel "train.csv" "test.csv");;;
         SklearnModel.train).
End Toy.

(** More instances, for the edges of the lifecycles. *)
Module Trials.
Import Toy.

(** A network set up to train for no epoch. *)
Definition idle : State :=
  after (construct (NeuralNetwork "train.csv" "test.csv" 0)).

(** A network whose training loader has been replaced by one over no
    rows. *)
Definition starved : State :=
  mkState (<["train_loader" := VLoader (mkLoader (mkDataset [] [] 0%nat) 64 false)]>
             (self nn))
          (tick nn) (trace nn).

(** A random forest that is constructed and not yet trained. *)
Definition sapling : State :=
  after (construct (RandomForestModel.__init__ "train.csv" "test.csv" (1 # 2))).

(** The small world again, with estimators that know one class only:
    [predict_proba] has a single column. *)
Definition one_class : Collaborators := {|
  Scaler := nat;
  Net := Q;
  LossFn := unit;
  Optimizer := nat;
  Estimator := nat;
  read_dataset := @read_dataset Toy.collaborators;
  shuffle_rows := @shuffle_rows Toy.collaborators;
  set_training := @set_training Toy.collaborators;
  forward := @forward Toy.collaborators;
  torch_sigmoid := @torch_sigmoid Toy.collaborators;
  loss_value := @loss_value Toy.collaborators;
  backward_step := @backward_step Toy.collaborators;
  fit := @fit Toy.collaborators;
  predict_proba e X := map (fun _ => [1%Q]) X;
  predict := @predict Toy.collaborators;
  RandomForestClassifier := O;
  localtime := @localtime Toy.collaborators
|}.

Definition one_class_forest : @State one_class :=
  snd (@construct one_class
         (@RandomForestModel.__init__ one_class "train.csv" "test.csv" (1 # 2))
         (@mkState one_class ∅ 0 [])).
End Trials.

(** ** Vocabulary of the statements *)

(** Labels that are 0 or 1. *)
Definition binary (l : list Z) : Prop := Forall (fun z => z = 0 ∨ z = 1) l.

Definition untouched (K : list string) (k : string) : bool :=
  forallb (fun x => negb (String.eqb x k)) K.

Section Vocabulary.
Context `{Collaborators}.

(** [assigns K P m]: whatever its outcome, [m] leaves every attribute
    outside [K] as it was, and only adds events that satisfy [P] to the
    trace. *)
Definition assigns (K : list string) (P : Event → Prop) {A} (m : M A) : Prop :=
  ∀ st r st', m st = (r, st') →
    (∀ k, untouched K k = true → self st' !! k = self st !! k) ∧
    ∃ new, trace st' = (trace st ++ new)%list ∧ Forall P new.

Definition no_event (e : Event) : Prop := False.

Definition is_iteration (e : Event) : Prop :=
  match e with EIterate _ => True | _ => False end.

Definition is_print (e : Event) : Prop :=
  match e with EPrint _ _ => True | _ => False end.

Definition is_plot (e : Event) : Prop :=
  match e with EPlotCM _ _ => True | _ => False end.

Definition not_a_checkpoint (e : Event) : Prop :=
  match e with ETorchSave _ _ | EJoblibDump _ _ => False | _ => True end.

Definition is_iteration_or_save (e : Event) : Prop :=
  match e with EIterate _ | ETorchSave _ _ => True | _ => False end.

Definition train_attrs : list string :=
  ["model"; "running_loss"; "pred"; "loss"; "optimizer"; "train_loss"].
Definition batch_attrs : list string := ["outputs"; "predicted"; "y_pred"].
Definition test_attrs : list string :=
  ["model"; "y_pred"; "outputs"; "predicted"; "cm"; "accuracy"].
Definition save_attrs : list string := ["timestamp"; "file_name"; "to_save"].
Definition loop_attrs : list string :=
  (["train_dataset"; "train_loader"; "cms"]
   ++ train_attrs ++ test_attrs ++ save_attrs)%list.

(** The label [TorchModel.test] gives one row under a network and a
    threshold. *)
Definition predict_label (net : Net) (threshold : Q) (x : list Q) : Z :=
  decide_label threshold (torch_sigmoid (forward net x)).

(** The rows in the order one pass over the loader visits them. *)
Definition visit_order (l : DataLoader) (draw : nat) : list (list Q * Z) :=
  if shuffle l then shuffle_rows draw (rows (dataset l)) else rows (dataset l).

(** One pass of [train] over the batches, in order: the optimiser, the
    network and the running loss after it. *)
Fixpoint train_pass (loss_fn : LossFn) (bs : list (list (list Q) * list Z))
    (optimizer : Optimizer) (net : Net) (running_loss : Q)
    : Optimizer * Net * Q :=
  match bs with
  | [] => (optimizer, net, running_loss)
  | (X, y) :: rest =>
      let loss := loss_value loss_fn (map (forward net) X) y in
      let '(optimizer', net') := backward_step loss_fn optimizer net X y in
      train_pass loss_fn rest optimizer' net' (running_loss + loss)%Q
  end.

(** How the two closing lines of [test] end on given labels. *)
Definition outcome_of (y_true y_pred : list Z) : Res unit :=
  match confusion_matrix y_true y_pred with
  | Ok cm => match accuracy_of cm with
             | Ok _ => Ok tt
             | Raise e => Raise e
             end
  | Raise e => Raise e
  end.

(** The predictions [SklearnModel.test] makes. *)
Definition sklearn_predictions (s : Val) (e : Estimator) (X : list (list Q))
    (y_pred : list Z) (st : State) : Prop :=
  if truthy s then
    ∃ probs t threshold,
      SklearnModel.column 1 (predict_proba e X) = Ok probs ∧
      self st !! "threshold" = Some t ∧ as_float t = Ok threshold ∧
      y_pred = map (decide_label threshold) probs
  else y_pred = map where_one (predict e X).

(** [thresholded_run st st' threshold probs]: [st'] is where an
    evaluation by probability leaves an instance [st] that has all the
    evaluation reads, [probs] being the probability of each test sample
    and [threshold] the configured cutoff. *)
Inductive thresholded_run (st st' : State) (threshold : Q) (probs : list Q) : Prop :=
  | torch_thresholded dv net t l d :
      self st !! "device" = Some dv →
      self st !! "model" = Some (VNet net) →
      self st !! "threshold" = Some t → as_float t = Ok threshold →
      self st !! "test_loader" = Some (VLoader l) →
      self st !! "test_dataset" = Some (VDataset d) →
      probs = map (fun x => torch_sigmoid (forward (set_training false net) x))
                  (map fst (visit_order l (tick st))) →
      st' = snd (TorchModel.test st) →
      thresholded_run st st' threshold probs
  | sklearn_thresholded s e X t :
      self st !! "supervised" = Some s → truthy s = true →
      self st !! "model" = Some (VEstimator e) →
      self st !! "X_test" = Some (VFeatures X) →
      self st !! "threshold" = Some t → as_float t = Ok threshold →
      SklearnModel.column 1 (predict_proba e X) = Ok probs →
      st' = snd (SklearnModel.test st) →
      thresholded_run st st' threshold probs.

(** [evaluation_run st r st' y_true y_pred]: an evaluation of an
    instance [st] that has all the evaluation reads ends with [r] in
    [st'], [y_true] being the test labels and [y_pred] the predictions. *)
Inductive evaluation_run (st : State) (r : Res unit) (st' : State)
    (y_true y_pred : list Z) : Prop :=
  | torch_evaluation dv net t threshold l d :
      self st !! "device" = Some dv →
      self st !! "model" = Some (VNet net) →
      self st !! "threshold" = Some t → as_float t = Ok threshold →
      self st !! "test_loader" = Some (VLoader l) →
      self st !! "test_dataset" = Some (VDataset d) →
      y_true = target d →
      y_pred = map (predict_label (set_training false net) threshold)
                   (map fst (visit_order l (tick st))) →
      TorchModel.test st = (r, st') →
      evaluation_run st r st' y_true y_pred
  | sklearn_evaluation s e X :
      self st !! "supervised" = Some s →
      self st !! "model" = Some (VEstimator e) →
      self st !! "X_test" = Some (VFeatures X) →
      self st !! "y_test" = Some (VLabels y_true) →
      sklearn_predictions s e X y_pred st →
      SklearnModel.test st = (r, st') →
      evaluation_run st r st' y_true y_pred.
End Vocabulary.

(** *** Checkpoints *)

Inductive Lifecycle := Gradient | FitPredict.

Definition saveModel_of `{Collaborators} (k : Lifecycle) : M unit :=
  match k with
  | Gradient => TorchModel.saveModel
  | FitPredict => SklearnModel.saveModel
  end.

Definition is_digit (c : ascii) : bool :=
  (48 <=? nat_of_ascii c)%nat && (nat_of_ascii c <=? 57)%nat.

(** Eight digits, an underscore, six digits. *)
Definition is_timestamp (s : string) : bool :=
  let l := list_ascii_of_string s in
  (length l =? 15)%nat && forallb is_digit (take 8 l) &&
  (match l !! 8%nat with Some c => Ascii.eqb c "_" | None => false end) &&
  forallb is_digit (drop 9 l).

(** The fields of a [struct_time], with a year of at most four digits. *)
Definition valid_time (t : Z * Z * Z * Z * Z * Z) : Prop :=
  let '(year, mon, mday, hour, min, sec) := t in
  0 ≤ year ≤ 9999 ∧ 1 ≤ mon ≤ 12 ∧ 1 ≤ mday ≤ 31 ∧
  0 ≤ hour ≤ 23 ∧ 0 ≤ min ≤ 59 ∧ 0 ≤ sec ≤ 61.

(** *** The training loop, epoch by epoch *)

Record EpochLog `{Collaborators} := mkEpoch {
  trained_on : DataLoader;
  loss_printed : Val;
  csv_file_read : string;
  scalar_passed : Scaler;
  resampled : DatasetReader Scaler;
  evaluated_on : DataLoader;
  saved : gmap string Val;
  saved_as : string;
  recorded : list (list Z)
}.
Arguments mkEpoch {_} _ _ _ _ _ _ _ _ _.

Section LoopVocabulary.
Context `{Collaborators}.

(** The calls one epoch makes, in order. *)
Definition epoch_events (t : nat) (e : EpochLog) : list Event :=
  [ EPrint TorchModel.epoch_banner [VInt (Z.of_nat t + 1)];
    EIterate (trained_on e);
    EPrint "Train Loss: {:>7f}" [loss_printed e];
    ENewDataset (csv_file_read e) (Some true) (Some (scalar_passed e)) (resampled e);
    EIterate (evaluated_on e);
    ETorchSave (saved e) (saved_as e) ].

Fixpoint loop_events (t : nat) (logs : list EpochLog) : list Event :=
  match logs with
  | [] => []
  | e :: rest => (epoch_events t e ++ loop_events (S t) rest)%list
  end.

(** Each epoch trains on the loader that is current when it starts: the
    one in [cur] for the first epoch, then the one the epoch before
    built over its re-sampled training set. *)
Fixpoint chained (cur batch : option Val) (logs : list EpochLog) : Prop :=
  match logs with
  | [] => True
  | e :: rest =>
      cur = Some (VLoader (trained_on e)) ∧
      ∃ n, batch = Some (VInt (Zpos n)) ∧
           chained (Some (VLoader (mkLoader (resampled e) n true))) batch rest
  end.

(** What every epoch of a run from [st] read and recorded. *)
Definition epoch_of (st : State) (e : EpochLog) : Prop :=
  self st !! "train_file" = Some (VStr (csv_file_read e)) ∧
  self st !! "scalar" = Some (VScaler (scalar_passed e)) ∧
  self st !! "test_loader" = Some (VLoader (evaluated_on e)) ∧
  ∃ d y_pred,
    self st !! "test_dataset" = Some (VDataset d) ∧
    confusion_matrix (target d) y_pred = Ok (recorded e).

(** A re-construction of the training set: the training file, with
    undersampling, under the scaler the instance holds. *)
Definition resamples_with (scalar train_file : option Val) (e : Event) : Prop :=
  match e with
  | ENewDataset f u s _ =>
      u = Some true ∧ train_file = Some (VStr f) ∧
      ∃ sc, s = Some sc ∧ scalar = Some (VScaler sc)
  | _ => True
  end.

(** [keeps_scaler scalar train_file m]: started on an instance with these
    two attributes, [m] ends, however it ends, on an instance with the
    same two, and constructed datasets only by [resamples_with]. *)
Definition keeps_scaler (scalar train_file : option Val) {A} (m : M A) : Prop :=
  ∀ st r st',
    self st !! "scalar" = scalar → self st !! "train_file" = train_file →
    m st = (r, st') →
    self st' !! "scalar" = scalar ∧ self st' !! "train_file" = train_file ∧
    ∃ new, trace st' = (trace st ++ new)%list ∧
           Forall (resamples_with scalar train_file) new.

(** Whether the first thing a run does with the training data is to
    re-construct it (rather than to make a pass over a loader). *)
Fixpoint resamples_first (evs : list Event) : bool :=
  match evs with
  | [] => false
  | ENewDataset _ _ _ _ :: _ => true
  | EIterate _ :: _ => false
  | _ :: rest => resamples_first rest
  end.

(** The training sets the shuffling passes of a run went over. *)
Fixpoint trained_sets (evs : list Event) : list (DatasetReader Scaler) :=
  match evs with
  | [] => []
  | EIterate l :: rest =>
      if shuffle l then dataset l :: trained_sets rest else trained_sets rest
  | _ :: rest => trained_sets rest
  end.

(** The datasets a run constructed, with the scaler passed for each. *)
Fixpoint constructions (evs : list Event)
    : list (string * option bool * option Scaler * DatasetReader Scaler) :=
  match evs with
  | [] => []
  | ENewDataset f u s d :: rest => (f, u, s, d) :: constructions rest
  | _ :: rest => constructions rest
  end.
End LoopVocabulary.

(** The number of samples labelled positive. *)
Definition count_positive (y_pred : list Z) : nat :=
  length (List.filter (Z.eqb 1) y_pred).

(** Sample by sample: labelled positive exactly when the probability
    reaches the threshold. *)
Definition at_or_above_rule (threshold : Q) (probs : list Q) (y_pred : list Z) : Prop :=
  length y_pred = length probs ∧
  ∀ i p, probs !! i = Some p → (y_pred !! i = Some 1 ↔ (threshold <= p)%Q).

(** Sample by sample: labelled positive exactly when the probability is
    strictly above the threshold. *)
Definition strictly_above_rule (threshold : Q) (probs : list Q) (y_pred : list Z) : Prop :=
  length y_pred = length probs ∧
  ∀ i p, probs !! i = Some p → (y_pred !! i = Some 1 ↔ (threshold < p)%Q).

(** * Facts about the library functions *)

Lemma elem_of_insert_label z x l : z ∈ insert_label x l ↔ z = x ∨ z ∈ l.
Proof.
  induction l as [|y l IH]; simpl.
  - set_solver.
  - destruct (Z.ltb_spec x y); [set_solver|].
    destruct (Z.eqb_spec x y); [set_solver|].
    rewrite elem_of_cons, IH. set_solver.
Qed.

Lemma elem_of_unique_labels z y_true y_pred :
  z ∈ unique_labels y_true y_pred ↔ z ∈ (y_true ++ y_pred)%list.
Proof.
  unfold unique_labels. induction (y_true ++ y_pred)%list as [|x l IH]; simpl.
  - done.
  - rewrite elem_of_insert_label, IH. set_solver.
Qed.

Lemma insert_label_sorted x l :
  StronglySorted Z.lt l → StronglySorted Z.lt (insert_label x l).
Proof.
  induction 1 as [|y l Hs IH Hy]; simpl.
  - repeat constructor.
  - destruct (Z.ltb_spec x y).
    + constructor; [by constructor|]. constructor; [done|].
      eapply Forall_impl; [exact Hy|]. intros; simpl in *; lia.
    + destruct (Z.eqb_spec x y); [by constructor|].
      constructor; [done|]. apply Forall_forall. intros z Hz.
      apply elem_of_insert_label in Hz as [->|Hz]; [lia|].
      rewrite Forall_forall in Hy. by apply Hy.
Qed.

Lemma unique_labels_sorted y_true y_pred :
  StronglySorted Z.lt (unique_labels y_true y_pred).
Proof.
  unfold unique_labels. induction (y_true ++ y_pred)%list; simpl.
  - constructor.
  - by apply insert_label_sorted.
Qed.

Lemma binary_labels_cases l :
  StronglySorted Z.lt l → binary l →
  l = [] ∨ l = [0] ∨ l = [1] ∨ l = [0; 1].
Proof.
  intros Hs Hb.
  destruct l as [|a [|b [|c l]]].
  - auto.
  - apply Forall_cons in Hb as [[->| ->] _]; auto.
  - apply Forall_cons in Hb as [Ha Hb]. apply Forall_cons in Hb as [Hb _].
    apply StronglySorted_inv in Hs as [_ Hab]. apply Forall_cons in Hab as [Hab _].
    right; right; right. destruct Ha, Hb; subst; try lia; done.
  - exfalso.
    apply Forall_cons in Hb as [Ha Hb]. apply Forall_cons in Hb as [Hb Hc].
    apply Forall_cons in Hc as [Hc _].
    apply StronglySorted_inv in Hs as [Hs Hab]. apply Forall_cons in Hab as [Hab _].
    apply StronglySorted_inv in Hs as [_ Hbc]. apply Forall_cons in Hbc as [Hbc _].
    destruct Ha, Hb, Hc; subst; lia.
Qed.

Lemma binary_app l1 l2 : binary l1 → binary l2 → binary (l1 ++ l2).
Proof. apply Forall_app_2. Qed.

Lemma unique_labels_binary y_true y_pred :
  binary y_true → binary y_pred →
  let labels := unique_labels y_true y_pred in
  labels = [] ∨ labels = [0] ∨ labels = [1] ∨ labels = [0; 1].
Proof.
  intros Ht Hp. apply binary_labels_cases; [apply unique_labels_sorted|].
  apply Forall_forall. intros z Hz. apply elem_of_unique_labels in Hz.
  pose proof (binary_app _ _ Ht Hp) as Hb. unfold binary in Hb.
  rewrite Forall_forall in Hb. by apply Hb.
Qed.

Lemma count_cell_nonneg y_true y_pred a p : 0 ≤ count_cell y_true y_pred a p.
Proof. unfold count_cell. lia. Qed.

Lemma count_cell_binary_total y_true y_pred :
  binary y_true → binary y_pred → length y_true = length y_pred →
  count_cell y_true y_pred 0 0 + count_cell y_true y_pred 0 1
  + count_cell y_true y_pred 1 0 + count_cell y_true y_pred 1 1
  = Z.of_nat (length y_true).
Proof.
  unfold count_cell. intros Ht. revert y_pred.
  induction Ht as [|t y_true Hx Ht IH]; intros [|p y_pred] Hp Hlen;
    simpl in *; try done.
  apply Forall_cons in Hp as [Hp1 Hp]. injection Hlen as Hlen.
  specialize (IH y_pred Hp Hlen).
  destruct Hx as [-> | ->], Hp1 as [-> | ->]; simpl; lia.
Qed.

Lemma count_cell_single_class y_true y_pred c :
  Forall (eq c) y_true → Forall (eq c) y_pred → length y_true = length y_pred →
  count_cell y_true y_pred c c = Z.of_nat (length y_true).
Proof.
  unfold count_cell. intros Ht. revert y_pred.
  induction Ht as [|t y_true <- Ht IH]; intros [|p y_pred] Hp Hlen;
    simpl in *; try done.
  apply Forall_cons in Hp as [<- Hp]. injection Hlen as Hlen.
  specialize (IH y_pred Hp Hlen). rewrite Z.eqb_refl. simpl. lia.
Qed.

Lemma foldr_insert_label_single c l :
  Forall (eq c) l → l ≠ [] → foldr insert_label [] l = [c].
Proof.
  induction 1 as [|x l <- Hl IH]; [done|]. intros _. simpl.
  destruct l as [|y l]; [done|].
  rewrite IH by done. simpl. by rewrite Z.ltb_irrefl, Z.eqb_refl.
Qed.

Lemma unique_labels_single_class y_true y_pred c :
  Forall (eq c) y_true → Forall (eq c) y_pred → y_true ≠ [] →
  unique_labels y_true y_pred = [c].
Proof.
  intros Ht Hp Hne. apply foldr_insert_label_single.
  - by apply Forall_app_2.
  - by destruct y_true.
Qed.

(** With one class only the matrix is 1x1 and [cm[1, 1]] is out of bounds. *)
Lemma confusion_matrix_single_class y_true y_pred c :
  Forall (eq c) y_true → Forall (eq c) y_pred → y_true ≠ [] →
  length y_true = length y_pred →
  confusion_matrix y_true y_pred = Ok [[Z.of_nat (length y_true)]] ∧
  accuracy_of [[Z.of_nat (length y_true)]] = Raise IndexError.
Proof.
  intros Ht Hp Hne Hlen. split; [|done].
  unfold confusion_matrix. rewrite Hlen, Nat.eqb_refl, <- Hlen.
  rewrite (unique_labels_single_class _ _ c) by done. simpl.
  by rewrite count_cell_single_class.
Qed.


Lemma ratio_bounds (x n : Z) :
  0 ≤ x → x ≤ n → 0 < n →
  (0 <= inject_Z x / inject_Z n)%Q ∧ (inject_Z x / inject_Z n <= 1)%Q.
Proof.
  intros Hx Hxn Hn. destruct n as [|p|p]; try lia.
  rewrite <- Qmake_Qdiv. unfold Qle. simpl. lia.
Qed.

Lemma binary_decide_label threshold probs :
  binary (map (decide_label threshold) probs).
Proof.
  apply Forall_forall. intros z Hz. apply list_elem_of_fmap in Hz as (p & -> & _).
  unfold decide_label. destruct (Qle_bool threshold p); auto.
Qed.

Lemma binary_where_one raws : binary (map where_one raws).
Proof.
  apply Forall_forall. intros z Hz. apply list_elem_of_fmap in Hz as (p & -> & _).
  unfold where_one. destruct (p =? 1); auto.
Qed.

Lemma confusion_matrix_lengths y_true y_pred cm :
  confusion_matrix y_true y_pred = Ok cm → length y_true = length y_pred.
Proof.
  unfold confusion_matrix. destruct (Nat.eqb_spec (length y_true) (length y_pred)); done.
Qed.

(** The evaluation of binary labels: whenever both matrix cells are in
    bounds, the matrix is 2x2, its cells add up to the number of samples,
    and the accuracy is the diagonal share of it. *)
Lemma evaluation_binary y_true y_pred cm acc :
  binary y_true → binary y_pred →
  confusion_matrix y_true y_pred = Ok cm → accuracy_of cm = Ok acc →
  ∃ a b c d,
    cm = [[a; b]; [c; d]] ∧
    a + b + c + d = Z.of_nat (length y_true) ∧
    (acc == inject_Z (a + d) / inject_Z (a + b + c + d))%Q ∧
    (0 <= acc)%Q ∧ (acc <= 1)%Q ∧
    0 ∈ (y_true ++ y_pred)%list ∧ 1 ∈ (y_true ++ y_pred)%list.
Proof.
  intros Ht Hp Hcm Hacc.
  pose proof (confusion_matrix_lengths _ _ _ Hcm) as Hlen.
  pose proof (count_cell_binary_total _ _ Ht Hp Hlen) as Htot.
  pose proof (elem_of_unique_labels 0 y_true y_pred) as H0.
  pose proof (elem_of_unique_labels 1 y_true y_pred) as H1.
  unfold confusion_matrix in Hcm. rewrite Hlen, Nat.eqb_refl in Hcm.
  destruct (unique_labels_binary _ _ Ht Hp) as [E|[E|[E|E]]];
    rewrite E in *; simpl in Hcm; injection Hcm as <-; try done.
  set (a := count_cell y_true y_pred 0 0) in *.
  set (b := count_cell y_true y_pred 0 1) in *.
  set (c := count_cell y_true y_pred 1 0) in *.
  set (d := count_cell y_true y_pred 1 1) in *.
  assert (0 ≤ a ∧ 0 ≤ b ∧ 0 ≤ c ∧ 0 ≤ d) as (Ha & Hb & Hc & Hd)
    by (repeat split; apply count_cell_nonneg).
  assert (0 < a + b + c + d) as Hpos.
  { rewrite Htot. destruct y_true, y_pred; simpl in *; try lia.
    assert (0 ∈ @nil Z) as Hin by (apply H0; set_solver).
    by apply elem_of_nil in Hin. }
  exists a, b, c, d. split; [done|]. split; [done|].
  unfold accuracy_of in Hacc. simpl in Hacc. injection Hacc as <-.
  replace (cm_sum [[a; b]; [c; d]]) with (a + b + c + d)
    by (unfold cm_sum; simpl; lia).
  split; [reflexivity|].
  destruct (ratio_bounds (a + d) (a + b + c + d)) as [? ?]; try lia.
  repeat split; try done; [apply H0 | apply H1]; set_solver.
Qed.

Lemma outcome_of_binary y_true y_pred :
  binary y_true → binary y_pred → length y_true = length y_pred →
  outcome_of y_true y_pred = Ok tt ↔
  0 ∈ (y_true ++ y_pred)%list ∧ 1 ∈ (y_true ++ y_pred)%list.
Proof.
  intros Ht Hp Hlen. unfold outcome_of. split.
  - destruct (confusion_matrix y_true y_pred) as [cm|] eqn:Hcm; [|done].
    destruct (accuracy_of cm) as [acc|] eqn:Hacc; [|done]. intros _.
    by destruct (evaluation_binary _ _ _ _ Ht Hp Hcm Hacc)
      as (a & b & c & d & _ & _ & _ & _ & _ & H0 & H1).
  - intros [H0 H1]. apply elem_of_unique_labels in H0, H1.
    unfold confusion_matrix. rewrite Hlen, Nat.eqb_refl.
    destruct (unique_labels_binary _ _ Ht Hp) as [E|[E|[E|E]]];
      rewrite E in *; try done; set_solver.
Qed.

Lemma outcome_of_single_class y_true y_pred c :
  Forall (eq c) y_true → Forall (eq c) y_pred → y_true ≠ [] →
  length y_true = length y_pred →
  outcome_of y_true y_pred = Raise IndexError.
Proof.
  intros Ht Hp Hne Hlen. unfold outcome_of.
  destruct (confusion_matrix_single_class _ _ _ Ht Hp Hne Hlen) as [-> ->]. done.
Qed.

Lemma decide_label_positive threshold p :
  decide_label threshold p = 1 ↔ (threshold <= p)%Q.
Proof.
  unfold decide_label. rewrite <- Qle_bool_iff.
  destruct (Qle_bool threshold p); [done|]. split; [lia|done].
Qed.

(** *** Batching *)

Lemma chunks_concat {A} fuel n (l : list A) :
  (0 < n)%nat → (length l ≤ fuel)%nat → concat (chunks fuel n l) = l.
Proof.
  intros Hn. revert l. induction fuel as [|fuel IH]; intros l Hl.
  - destruct l; [done|simpl in Hl; lia].
  - destruct l as [|x l]; [done|].
    change (chunks (S fuel) n (x :: l))
      with (take n (x :: l) :: chunks fuel n (drop n (x :: l))).
    simpl concat. rewrite IH.
    + apply take_drop.
    + rewrite length_drop. simpl in *. lia.
Qed.

Lemma batches_concat {A} n (l : list A) : concat (batches n l) = l.
Proof. apply chunks_concat; lia. Qed.

Lemma batches_features n (l : list (list Q * Z)) :
  concat (map fst (map unzip_batch (batches n l))) = map fst l.
Proof.
  rewrite <- (batches_concat n l) at 2.
  induction (batches n l) as [|b bs IH]; [done|].
  simpl. rewrite map_app. by f_equal.
Qed.

(** *** The monad *)

Section MonadFacts.
Context `{Collaborators}.

Lemma bind_ok {A B} (m : M A) (k : A → M B) st b st' :
  bind m k st = (Ok b, st') →
  ∃ a st1, m st = (Ok a, st1) ∧ k a st1 = (Ok b, st').
Proof.
  unfold bind. destruct (m st) as [[a|e] st1]; [eauto|done].
Qed.

Lemma bind_run {A B} (m : M A) (k : A → M B) st a st1 :
  m st = (Ok a, st1) → bind m k st = k a st1.
Proof. unfold bind. by intros ->. Qed.

Lemma bind_raise {A B} (m : M A) (k : A → M B) st e st1 :
  m st = (Raise e, st1) → bind m k st = (Raise e, st1).
Proof. unfold bind. by intros ->. Qed.

Lemma getattr_ok name st v st' :
  getattr name st = (Ok v, st') → self st !! name = Some v ∧ st' = st.
Proof.
  unfold getattr. destruct (self st !! name); [|done].
  by intros [= -> ->].
Qed.

Lemma getattr_run name st v :
  self st !! name = Some v → getattr name st = (Ok v, st).
Proof. unfold getattr. by intros ->. Qed.

Lemma lift_ok {A} (r : Res A) st a st' :
  lift r st = (Ok a, st') → r = Ok a ∧ st' = st.
Proof. unfold lift. by intros [= -> ->]. Qed.
End MonadFacts.

(** * Which attributes a method assigns *)

Lemma untouched_neq K k name :
  untouched K k = true → existsb (String.eqb name) K = true → name ≠ k.
Proof.
  unfold untouched. intros Hall Hex ->.
  apply existsb_exists in Hex as (x & Hx & Heq).
  apply String.eqb_eq in Heq as <-.
  rewrite forallb_forall in Hall. specialize (Hall _ Hx).
  by rewrite String.eqb_refl in Hall.
Qed.

Lemma untouched_mono K K' k :
  forallb (fun x => existsb (String.eqb x) K') K = true →
  untouched K' k = true → untouched K k = true.
Proof.
  unfold untouched. rewrite !forallb_forall. intros Hsub Hk x Hx.
  specialize (Hsub x Hx). apply existsb_exists in Hsub as (y & Hy & Heq).
  apply String.eqb_eq in Heq as <-. by apply Hk.
Qed.

Section Frames.
Context `{Collaborators}.

Lemma assigns_pure K P {A} (m : M A) :
  (∀ st, ∃ r, m st = (r, st)) → assigns K P m.
Proof.
  intros Hm st r st' Hrun. destruct (Hm st) as [r' Hr].
  rewrite Hr in Hrun. injection Hrun as <- <-.
  split; [done|]. exists []. by rewrite app_nil_r.
Qed.

Lemma assigns_ret K P {A} (a : A) : assigns K P (ret a).
Proof. apply assigns_pure. by eexists. Qed.

Lemma assigns_raise K P {A} e : assigns K P (@raise _ A e).
Proof. apply assigns_pure. by eexists. Qed.

Lemma assigns_lift K P {A} (x : Res A) : assigns K P (lift x).
Proof. apply assigns_pure. by eexists. Qed.

Lemma assigns_getattr K P name : assigns K P (getattr name).
Proof.
  apply assigns_pure. intros st. unfold getattr.
  destruct (self st !! name); by eexists.
Qed.

Lemma assigns_setattr K P name v :
  existsb (String.eqb name) K = true → assigns K P (setattr name v).
Proof.
  intros HK st r st' [= <- <-]. simpl. split.
  - intros k Hk. apply lookup_insert_ne. by eapply untouched_neq.
  - exists []. by rewrite app_nil_r.
Qed.

Lemma assigns_emit K (P : Event → Prop) e : P e → assigns K P (emit e).
Proof.
  intros He st r st' [= <- <-]. simpl. split; [done|].
  exists [e]. split; [done|]. by constructor.
Qed.

Lemma assigns_observe K P : assigns K P observe.
Proof.
  intros st r st' [= <- <-]. simpl. split; [done|].
  exists []. by rewrite app_nil_r.
Qed.

Lemma assigns_bind K P {A B} (m : M A) (k : A → M B) :
  assigns K P m → (∀ a, assigns K P (k a)) → assigns K P (bind m k).
Proof.
  intros Hm Hk st r st'. unfold bind.
  destruct (m st) as [[a|e] st1] eqn:E; intros Hrun.
  - destruct (Hm _ _ _ E) as [F1 (n1 & T1 & P1)].
    destruct (Hk a _ _ _ Hrun) as [F2 (n2 & T2 & P2)]. split.
    + intros k' Hk'. by rewrite F2, F1.
    + exists (n1 ++ n2)%list. rewrite T2, T1, app_assoc.
      split; [done|]. by apply Forall_app_2.
  - injection Hrun as <- <-. by apply (Hm _ _ _ E).
Qed.

Lemma assigns_for_each K P {A} (l : list A) (body : A → M unit) :
  (∀ x, assigns K P (body x)) → assigns K P (for_each l body).
Proof.
  intros Hb. induction l as [|x l IH]; simpl.
  - apply assigns_ret.
  - apply assigns_bind; [apply Hb|]. intros _. apply IH.
Qed.

(** A method that assigns less and emits less also fits the wider bill. *)
Lemma assigns_mono K K' (P P' : Event → Prop) {A} (m : M A) :
  assigns K P m →
  forallb (fun x => existsb (String.eqb x) K') K = true →
  (∀ e, P e → P' e) →
  assigns K' P' m.
Proof.
  intros Hm Hsub HP st r st' Hrun.
  destruct (Hm _ _ _ Hrun) as [F (new & T & Hnew)]. split.
  - intros k Hk. apply F. by eapply untouched_mono.
  - exists new. split; [done|]. by eapply Forall_impl.
Qed.

(** A run that emits nothing leaves the trace as it was. *)
Lemma assigns_silent K {A} (m : M A) st r st' :
  assigns K no_event m → m st = (r, st') → trace st' = trace st.
Proof.
  intros Hm Hrun. destruct (Hm _ _ _ Hrun) as [_ (new & T & Hnew)].
  destruct new as [|e new]; [by rewrite app_nil_r in T|].
  by apply Forall_cons in Hnew as [[] _].
Qed.

Lemma assigns_new_DataLoader K P d n s : assigns K P (new_DataLoader d n s).
Proof. unfold new_DataLoader. destruct n; (apply assigns_ret || apply assigns_raise). Qed.

Lemma assigns_iterate K l : assigns K is_iteration (iterate l).
Proof.
  unfold iterate. apply assigns_bind; [by apply assigns_emit|]. intros _.
  apply assigns_bind; [|intros ?; apply assigns_ret].
  destruct (shuffle l); [|apply assigns_ret].
  apply assigns_bind; [apply assigns_observe|intros ?; apply assigns_ret].
Qed.

Lemma assigns_strftime K P : assigns K P strftime.
Proof.
  unfold strftime. apply assigns_bind; [apply assigns_observe|intros ?; apply assigns_ret].
Qed.
End Frames.

Ltac assigns_step :=
  lazymatch goal with
  | |- assigns _ _ (bind _ _) => apply assigns_bind; [|intros ?]
  | |- assigns _ _ (ret _) => apply assigns_ret
  | |- assigns _ _ (raise _) => apply assigns_raise
  | |- assigns _ _ (lift _) => apply assigns_lift
  | |- assigns _ _ (getattr _) => apply assigns_getattr
  | |- assigns _ _ (emit _) => apply assigns_emit; exact I
  | |- assigns _ _ (print _ _) => apply assigns_emit; exact I
  | |- assigns _ _ (plotCM _ _) => apply assigns_emit; exact I
  | |- assigns _ _ observe => apply assigns_observe
  | |- assigns _ _ (setattr _ _) => apply assigns_setattr; reflexivity
  | |- assigns _ _ (new_DataLoader _ _ _) => apply assigns_new_DataLoader
  | |- assigns _ _ strftime => apply assigns_strftime
  | |- assigns _ _ (for_each _ _) => apply assigns_for_each; intros ?
  end.

Ltac assigns_auto := repeat assigns_step.

Section TorchFrames.
Context `{Collaborators}.

Lemma assigns_train_batch b : assigns train_attrs no_event (TorchModel.train_batch b).
Proof.
  destruct b as [X y]. unfold TorchModel.train_batch.
  assigns_auto. destruct (backward_step _ _ _ _ _). assigns_auto.
Qed.

Lemma assigns_train : assigns train_attrs is_iteration TorchModel.train.
Proof.
  unfold TorchModel.train. assigns_auto.
  - apply (assigns_mono train_attrs train_attrs is_iteration);
      [apply assigns_iterate|done..].
  - apply (assigns_mono train_attrs train_attrs no_event);
      [apply assigns_train_batch|done..].
  - destruct (_ =? 0); assigns_auto.
Qed.

Lemma assigns_test_batch b : assigns batch_attrs no_event (TorchModel.test_batch b).
Proof. destruct b as [X y]. unfold TorchModel.test_batch. assigns_auto. Qed.

Lemma assigns_test_loop bs :
  assigns batch_attrs no_event (for_each bs TorchModel.test_batch).
Proof. apply assigns_for_each, assigns_test_batch. Qed.

Lemma assigns_test : assigns test_attrs is_iteration TorchModel.test.
Proof.
  unfold TorchModel.test. assigns_auto.
  - apply (assigns_mono test_attrs test_attrs is_iteration);
      [apply assigns_iterate|done..].
  - apply (assigns_mono batch_attrs test_attrs no_event);
      [apply assigns_test_batch|done..].
Qed.

Lemma assigns_saveModel :
  assigns save_attrs is_iteration_or_save TorchModel.saveModel.
Proof. unfold TorchModel.saveModel. assigns_auto. Qed.
End TorchFrames.

(** * Runs of the gradient lifecycle *)

(** *** Stepping through a method that returned normally *)

Section CastFacts.
Context `{Collaborators}.

Lemma as_int_ok v z : as_int v = Ok z → v = VInt z.
Proof. destruct v; simpl; congruence. Qed.
Lemma as_str_ok v s : as_str v = Ok s → v = VStr s.
Proof. destruct v; simpl; congruence. Qed.
Lemma as_list_ok v l : as_list v = Ok l → v = VList l.
Proof. destruct v; simpl; congruence. Qed.
Lemma as_labels_ok v y : as_labels v = Ok y → v = VLabels y.
Proof. destruct v; simpl; congruence. Qed.
Lemma as_features_ok v X : as_features v = Ok X → v = VFeatures X.
Proof. destruct v; simpl; congruence. Qed.
Lemma as_dataset_ok v d : as_dataset v = Ok d → v = VDataset d.
Proof. destruct v; simpl; congruence. Qed.
Lemma as_loader_ok v l : as_loader v = Ok l → v = VLoader l.
Proof. destruct v; simpl; congruence. Qed.
Lemma as_scaler_ok v s : as_scaler v = Ok s → v = VScaler s.
Proof. destruct v; simpl; congruence. Qed.
Lemma as_net_ok v n : as_net v = Ok n → v = VNet n.
Proof. destruct v; simpl; congruence. Qed.
Lemma as_loss_fn_ok v f : as_loss_fn v = Ok f → v = VLossFn f.
Proof. destruct v; simpl; congruence. Qed.
Lemma as_optimizer_ok v o : as_optimizer v = Ok o → v = VOptimizer o.
Proof. destruct v; simpl; congruence. Qed.
Lemma as_estimator_ok name v e :
  SklearnModel.as_estimator name v = Ok e → v = VEstimator e.
Proof. destruct v; simpl; congruence. Qed.
End CastFacts.

Ltac lookups :=
  cbn [self tick trace] in *;
  repeat (rewrite lookup_insert_eq in * || rewrite lookup_insert_ne in * by done).

(** Uses what is already known about the attribute just read. *)
Ltac use_lookup E :=
  lookups;
  try match type of E with
      | ?l = Some _ =>
          match goal with
          | H : l = Some _ |- _ =>
              tryif constr_eq H E then fail else rewrite H in E
          end
      end;
  try match type of E with
      | Some _ = Some ?x => injection E as E; try subst x
      end.

(** The value read has the type the code uses it at. *)
Ltac use_cast E :=
  try first
    [ apply as_int_ok in E | apply as_str_ok in E | apply as_list_ok in E
    | apply as_labels_ok in E | apply as_features_ok in E
    | apply as_dataset_ok in E | apply as_loader_ok in E
    | apply as_scaler_ok in E | apply as_net_ok in E
    | apply as_loss_fn_ok in E | apply as_optimizer_ok in E
    | apply as_estimator_ok in E ];
  try match type of E with
      | ?v = _ => is_var v; subst v
      | _ ?a = _ ?b => injection E as E; first [subst a | subst b | idtac]
      end.

Ltac inv_head E :=
  lazymatch type of E with
  | getattr _ _ = _ => apply getattr_ok in E as [E ->]; use_lookup E
  | lift _ _ = _ => apply lift_ok in E as [E ->]; use_cast E
  | setattr _ _ _ = _ => injection E as _ <-; lookups
  | emit _ _ = _ => injection E as _ <-; lookups
  | print _ _ _ = _ => injection E as _ <-; lookups
  | plotCM _ _ _ = _ => injection E as _ <-; lookups
  | observe _ = _ => injection E as <- <-; lookups
  | ret _ _ = _ => injection E as <- <-
  | _ => idtac
  end.

Tactic Notation "inv_bind" hyp(H) "as" ident(a) ident(E) :=
  apply bind_ok in H as (a & ? & E & H); inv_head E.

Tactic Notation "inv_bind" hyp(H) :=
  let a := fresh "a" in let E := fresh "E" in inv_bind H as a E.

(** Running a method forward from what is known about the attributes. *)
Ltac run :=
  repeat first
    [ progress cbv beta iota delta
        [bind getattr setattr lift ret raise emit print plotCM observe]
    | progress cbn [self tick trace as_float as_int as_str as_list as_labels as_features
                    as_matrix as_dataset as_loader as_scaler as_net
                    as_loss_fn as_optimizer]
    | rewrite lookup_insert_eq
    | rewrite lookup_insert_ne by done
    | match goal with
      | H : self _ !! _ = Some _ |- _ => rewrite H
      | H : as_float _ = Ok _ |- _ => rewrite H
      end ].

Section TorchTest.
Context `{Collaborators}.

Lemma test_batch_ok b st st' net acc :
  TorchModel.test_batch b st = (Ok tt, st') →
  self st !! "model" = Some (VNet net) →
  self st !! "y_pred" = Some (VLabels acc) →
  ∃ t threshold,
    self st !! "threshold" = Some t ∧ as_float t = Ok threshold ∧
    self st' !! "y_pred"
      = Some (VLabels (acc ++ map (predict_label net threshold) (fst b))).
Proof.
  destruct b as [X y]. unfold TorchModel.test_batch. intros Hrun Hm Hy.
  inv_bind Hrun as dv Edev. inv_bind Hrun as m Em. inv_bind Hrun as net' Enet.
  inv_bind Hrun. inv_bind Hrun as t Et. inv_bind Hrun as thr Ethr.
  inv_bind Hrun. inv_bind Hrun as yp Ey. inv_bind Hrun as acc' Eacc.
  injection Hrun as <-. lookups.
  exists t, thr. repeat split; try done.
  by rewrite map_map.
Qed.

Lemma binary_predict_label net threshold xs :
  binary (map (predict_label net threshold) xs).
Proof.
  unfold predict_label.
  rewrite <- (map_map (fun x => torch_sigmoid (forward net x)) (decide_label threshold)).
  apply binary_decide_label.
Qed.

Lemma test_loop_ok bs st st' net acc :
  for_each bs TorchModel.test_batch st = (Ok tt, st') →
  self st !! "model" = Some (VNet net) →
  self st !! "y_pred" = Some (VLabels acc) →
  ∃ preds,
    self st' !! "y_pred" = Some (VLabels (acc ++ preds)) ∧
    binary preds ∧
    (∀ t threshold,
       self st !! "threshold" = Some t → as_float t = Ok threshold →
       preds = map (predict_label net threshold) (concat (map fst bs))).
Proof.
  revert st acc. induction bs as [|b bs IH]; intros st acc Hrun Hm Hy.
  - injection Hrun as <-. exists []. rewrite app_nil_r.
    split; [done|]. split; [apply Forall_nil_2|done].
  - simpl in Hrun. apply bind_ok in Hrun as ([] & st1 & Hb & Hrun).
    destruct (assigns_test_batch b _ _ _ Hb) as [Hframe _].
    destruct (test_batch_ok _ _ _ _ _ Hb Hm Hy) as (t & thr & Ht & Hthr & Hy1).
    destruct (IH st1 _ Hrun ltac:(by rewrite Hframe) Hy1)
      as (preds & Hy' & Hbin & Hpreds).
    exists (map (predict_label net thr) (fst b) ++ preds)%list.
    rewrite app_assoc. split; [done|]. split.
    + apply binary_app; [apply binary_predict_label|done].
    + intros t' thr' Ht' Hthr'. simpl. rewrite map_app.
      rewrite Ht in Ht'. injection Ht' as <-.
      rewrite Hthr in Hthr'. injection Hthr' as <-.
      f_equal. apply (Hpreds t); [|done]. by rewrite Hframe.
Qed.

Lemma test_loop_total bs st dv net t threshold acc :
  self st !! "device" = Some dv →
  self st !! "model" = Some (VNet net) →
  self st !! "threshold" = Some t → as_float t = Ok threshold →
  self st !! "y_pred" = Some (VLabels acc) →
  ∃ st', for_each bs TorchModel.test_batch st = (Ok tt, st').
Proof.
  revert st acc. induction bs as [|[X y] bs IH]; intros st acc Hd Hm Ht Hthr Hy.
  - by eexists.
  - simpl. unfold TorchModel.test_batch at 1. run.
    eapply IH; run; done.
Qed.

Lemma iterate_run l st :
  ∃ st1, iterate l st
         = (Ok (map unzip_batch (batches (batch_size l) (visit_order l (tick st)))), st1) ∧
         self st1 = self st ∧ trace st1 = (trace st ++ [EIterate l])%list.
Proof.
  unfold iterate, visit_order. destruct (shuffle l); run; by eexists.
Qed.
End TorchTest.

Section TorchTestRuns.
Context `{Collaborators}.

(** What a normal return of [TorchModel.test] tells. *)
Lemma torch_test_ok st st' :
  TorchModel.test st = (Ok tt, st') →
  ∃ net l d y_pred cm acc,
    self st !! "model" = Some (VNet net) ∧
    self st !! "test_loader" = Some (VLoader l) ∧
    self st !! "test_dataset" = Some (VDataset d) ∧
    trace st' = (trace st ++ [EIterate l])%list ∧
    self st' !! "y_pred" = Some (VLabels y_pred) ∧
    binary y_pred ∧
    (∀ t threshold,
       self st !! "threshold" = Some t → as_float t = Ok threshold →
       y_pred = map (predict_label (set_training false net) threshold)
                    (map fst (visit_order l (tick st)))) ∧
    confusion_matrix (target d) y_pred = Ok cm ∧
    self st' !! "cm" = Some (VMatrix cm) ∧
    accuracy_of cm = Ok acc ∧
    self st' !! "accuracy" = Some (VFloat acc).
Proof.
  unfold TorchModel.test. intros Hrun.
  inv_bind Hrun as m Em. inv_bind Hrun as net Enet.
  inv_bind Hrun. inv_bind Hrun.
  inv_bind Hrun as tl El. inv_bind Hrun as l Eld.
  apply bind_ok in Hrun as (bs & st1 & Eit & Hrun).
  match type of Eit with iterate _ ?s = _ =>
    destruct (iterate_run l s) as (st1' & Eit' & Hs1 & Ht1) end.
  rewrite Eit' in Eit. injection Eit as <- <-. cbn [self tick trace] in *.
  apply bind_ok in Hrun as ([] & st2 & Eloop & Hrun).
  destruct (assigns_test_loop _ _ _ _ Eloop) as [Hframe _].
  destruct (test_loop_ok _ _ _ (set_training false net) [] Eloop)
    as (preds & Hy & Hbin & Hpreds).
  { rewrite Hs1. by simplify_map_eq. }
  { rewrite Hs1. by simplify_map_eq. }
  pose proof (assigns_silent _ _ _ _ _ (assigns_test_loop _) Eloop) as Htr.
  inv_bind Hrun as td Etd. rewrite Hframe, Hs1 in Etd by done.
  rewrite !lookup_insert_ne in Etd by done.
  inv_bind Hrun as d Ed.
  inv_bind Hrun as yp Eyp.
  inv_bind Hrun as y_pred Ey.
  inv_bind Hrun as cm Ecm. inv_bind Hrun. inv_bind Hrun as acc Eacc.
  injection Hrun as <-. cbn [self tick trace].
  exists net, l, d, y_pred, cm, acc.
  rewrite Htr, Ht1. simplify_map_eq.
  repeat split; try done.
  intros t thr Ht Hthr. rewrite (Hpreds t thr).
  - by rewrite batches_features.
  - rewrite Hs1. by simplify_map_eq.
  - done.
Qed.
End TorchTestRuns.

Section TorchForward.
Context `{Collaborators}.

(** [TorchModel.test] on an instance that has all it reads. *)
Lemma torch_test_run st dv net t threshold l d :
  self st !! "device" = Some dv →
  self st !! "model" = Some (VNet net) →
  self st !! "threshold" = Some t → as_float t = Ok threshold →
  self st !! "test_loader" = Some (VLoader l) →
  self st !! "test_dataset" = Some (VDataset d) →
  let y_pred := map (predict_label (set_training false net) threshold)
                    (map fst (visit_order l (tick st))) in
  ∃ st',
    TorchModel.test st = (outcome_of (target d) y_pred, st') ∧
    self st' !! "y_pred" = Some (VLabels y_pred) ∧
    (∀ cm, confusion_matrix (target d) y_pred = Ok cm →
           self st' !! "cm" = Some (VMatrix cm)).
Proof.
  intros Hd Hm Ht Hthr Hl Htd y_pred. unfold TorchModel.test. run.
  match goal with |- context [iterate l ?s] =>
    destruct (iterate_run l s) as (st1 & Eit & Hs1 & Ht1); rewrite Eit end.
  cbn [self tick trace] in *.
  destruct (test_loop_total
              (map unzip_batch (batches (batch_size l) (visit_order l (tick st))))
              st1 dv (set_training false net) t threshold [])
    as (st2 & Eloop); try (rewrite Hs1; by simplify_map_eq); [done|].
  rewrite Eloop.
  destruct (assigns_test_loop _ _ _ _ Eloop) as [Hframe _].
  destruct (test_loop_ok _ _ _ (set_training false net) [] Eloop)
    as (preds & Hy & _ & Hpreds); try (rewrite Hs1; by simplify_map_eq).
  rewrite (Hpreds t threshold), batches_features in Hy;
    [|rewrite Hs1; by simplify_map_eq|done].
  assert (self st2 !! "test_dataset" = Some (VDataset d)) as Htd2.
  { rewrite Hframe, Hs1 by done. by simplify_map_eq. }
  simpl app in Hy. fold y_pred in Hy. run.
  unfold outcome_of.
  destruct (confusion_matrix (target d) y_pred) as [cm|e]; run.
  - destruct (accuracy_of cm); run; eexists; (split; [done|]);
      cbn [self]; simplify_map_eq; split; try done; by intros ? [= <-].
  - eexists. split; [done|]. split; [done|]. done.
Qed.
End TorchForward.

(** * Runs of the fit/predict lifecycle *)

Section SklearnTestRuns.
Context `{Collaborators}.

Lemma sklearn_predictions_binary s e X y_pred st :
  sklearn_predictions s e X y_pred st → binary y_pred.
Proof.
  unfold sklearn_predictions. destruct (truthy s).
  - intros (probs & t & thr & _ & _ & _ & ->). apply binary_decide_label.
  - intros ->. apply binary_where_one.
Qed.

(** What a normal return of [SklearnModel.test] tells. *)
Lemma sklearn_test_ok st st' :
  SklearnModel.test st = (Ok tt, st') →
  ∃ s e X y_test y_pred cm acc,
    self st !! "supervised" = Some s ∧
    self st !! "model" = Some (VEstimator e) ∧
    self st !! "X_test" = Some (VFeatures X) ∧
    self st !! "y_test" = Some (VLabels y_test) ∧
    sklearn_predictions s e X y_pred st ∧
    self st' !! "y_pred" = Some (VLabels y_pred) ∧
    confusion_matrix y_test y_pred = Ok cm ∧
    self st' !! "cm" = Some (VMatrix cm) ∧
    accuracy_of cm = Ok acc ∧
    self st' !! "accuracy" = Some (VFloat acc) ∧
    trace st' = trace st.
Proof.
  unfold SklearnModel.test, sklearn_predictions. intros Hrun.
  inv_bind Hrun as s Es.
  apply bind_ok in Hrun as ([] & st1 & Hbranch & Hrun).
  destruct (truthy s) eqn:Hs.
  - inv_bind Hbranch as m Em. inv_bind Hbranch as e Ee.
    inv_bind Hbranch as Xv EX. inv_bind Hbranch as X EX'.
    inv_bind Hbranch as probs Ep. inv_bind Hbranch as t Et.
    inv_bind Hbranch as thr Ethr. injection Hbranch as <-.
    inv_bind Hrun as yt Eyt. inv_bind Hrun as y_test Eyt'.
    inv_bind Hrun as yp Eyp. inv_bind Hrun as y_pred Eyp'.
    inv_bind Hrun as cm Ecm. inv_bind Hrun. inv_bind Hrun as acc Eacc.
    injection Hrun as <-. lookups.
    exists s, e, X, y_test, (map (decide_label thr) probs), cm, acc.
    rewrite Hs. split_and!; try done. by exists probs, t, thr.
  - inv_bind Hbranch as m Em. inv_bind Hbranch as e Ee.
    inv_bind Hbranch as Xv EX. inv_bind Hbranch as X EX'.
    injection Hbranch as <-.
    inv_bind Hrun as yt Eyt. inv_bind Hrun as y_test Eyt'.
    inv_bind Hrun as yp Eyp. inv_bind Hrun as y_pred Eyp'.
    inv_bind Hrun as cm Ecm. inv_bind Hrun. inv_bind Hrun as acc Eacc.
    injection Hrun as <-. lookups.
    exists s, e, X, y_test, (map where_one (predict e X)), cm, acc.
    rewrite Hs. split_and!; done.
Qed.
End SklearnTestRuns.

Section SklearnForward.
Context `{Collaborators}.

Lemma sklearn_test_predictions st s e X :
  self st !! "supervised" = Some s →
  self st !! "model" = Some (VEstimator e) →
  self st !! "X_test" = Some (VFeatures X) →
  let st' := snd (SklearnModel.test st) in
  if truthy s then
    ∀ probs t threshold,
      SklearnModel.column 1 (predict_proba e X) = Ok probs →
      self st !! "threshold" = Some t → as_float t = Ok threshold →
      self st' !! "y_pred" = Some (VLabels (map (decide_label threshold) probs))
  else
    self st' !! "y_pred" = Some (VLabels (map where_one (predict e X))).
Proof.
  intros Hs Hm HX. unfold SklearnModel.test. run.
  destruct (truthy s).
  - intros probs t thr Hp Ht Hthr. run. cbn [SklearnModel.as_estimator].
    rewrite Hp. run.
    repeat (case_match; run; try (simplify_eq; cbn [snd self]; by simplify_map_eq)).
  - run. cbn [SklearnModel.as_estimator]. run.
    repeat (case_match; run; try (simplify_eq; cbn [snd self]; by simplify_map_eq)).
Qed.

(** [SklearnModel.test] on an instance that has all it reads. *)
Lemma sklearn_test_run st s e X y_test y_pred :
  self st !! "supervised" = Some s →
  self st !! "model" = Some (VEstimator e) →
  self st !! "X_test" = Some (VFeatures X) →
  self st !! "y_test" = Some (VLabels y_test) →
  sklearn_predictions s e X y_pred st →
  ∃ st',
    SklearnModel.test st = (outcome_of y_test y_pred, st') ∧
    self st' !! "y_pred" = Some (VLabels y_pred) ∧
    (∀ cm, confusion_matrix y_test y_pred = Ok cm →
           self st' !! "cm" = Some (VMatrix cm)).
Proof.
  intros Hs Hm HX Hy. unfold sklearn_predictions, SklearnModel.test, outcome_of.
  run. destruct (truthy s).
  - intros (probs & t & thr & Hp & Ht & Hthr & ->). run.
    cbn [SklearnModel.as_estimator]. rewrite Hp. run.
    destruct (confusion_matrix _ _) as [cm|]; run;
      [destruct (accuracy_of cm); run|];
      eexists; (split; [done|]); cbn [self]; simplify_map_eq;
      (split; [done|]); try done; by intros ? [= <-].
  - intros ->. run. cbn [SklearnModel.as_estimator]. run.
    destruct (confusion_matrix _ _) as [cm|]; run;
      [destruct (accuracy_of cm); run|];
      eexists; (split; [done|]); cbn [self]; simplify_map_eq;
      (split; [done|]); try done; by intros ? [= <-].
Qed.
End SklearnForward.

(** * Checkpoints, the scaler and the training loop *)

(** *** Time stamps *)

Lemma is_digit_digit n : is_digit (digit (n mod 10)) = true.
Proof.
  pose proof (Z.mod_pos_bound n 10 ltac:(lia)) as Hb.
  assert (n mod 10 = 0 ∨ n mod 10 = 1 ∨ n mod 10 = 2 ∨ n mod 10 = 3 ∨
          n mod 10 = 4 ∨ n mod 10 = 5 ∨ n mod 10 = 6 ∨ n mod 10 = 7 ∨
          n mod 10 = 8 ∨ n mod 10 = 9) as Hc by lia.
  repeat destruct Hc as [-> | Hc]; try rewrite Hc; reflexivity.
Qed.

Lemma strftime_is_timestamp t : is_timestamp (strftime_Ymd_HMS t) = true.
Proof.
  destruct t as [[[[[year mon] mday] hour] min] sec].
  unfold is_timestamp, strftime_Ymd_HMS.
  cbv beta iota delta [decimal String.append]. cbn -[digit is_digit Z.div Z.modulo].
  by rewrite !is_digit_digit.
Qed.

Section SaveRuns.
Context `{Collaborators}.

Lemma strftime_run st :
  strftime st = (Ok (strftime_Ymd_HMS (localtime (tick st))),
                 mkState (self st) (S (tick st)) (trace st)).
Proof. reflexivity. Qed.

Lemma new_DatasetReader_run f u s st :
  new_DatasetReader f u s st
  = (Ok (read_dataset f u s (tick st)),
     mkState (self st) (S (tick st))
             (trace st ++ [ENewDataset f u s (read_dataset f u s (tick st))])).
Proof. reflexivity. Qed.

End SaveRuns.

Section SaveModel.
Context `{Collaborators}.

Lemma torch_saveModel_ok st st' :
  TorchModel.saveModel st = (Ok tt, st') →
  ∃ tag model threshold scalar,
    self st !! "model_type" = Some (VStr tag) ∧
    self st !! "model" = Some model ∧
    self st !! "threshold" = Some threshold ∧
    self st !! "scalar" = Some scalar ∧
    trace st' = (trace st ++
      [ETorchSave
         (<["model" := model]> (<["threshold" := threshold]>
          (<["model_type" := VStr "PyTorch"]> (<["scalar" := scalar]> ∅))))
         (tag ++ "Model_" ++ strftime_Ymd_HMS (localtime (tick st)) ++ ".pth")])%list.
Proof.
  unfold TorchModel.saveModel. intros Hrun.
  apply bind_ok in Hrun as (ts & st1 & E & Hrun).
  rewrite strftime_run in E. injection E as <- <-.
  inv_bind Hrun. inv_bind Hrun as mt Emt. inv_bind Hrun as tag Etag.
  inv_bind Hrun. inv_bind Hrun as m Em. inv_bind Hrun as thr Ethr.
  inv_bind Hrun as sc Esc. inv_bind Hrun. injection Hrun as <-.
  cbn [trace]. by exists tag, m, thr, sc.
Qed.

Lemma sklearn_saveModel_ok st st' :
  SklearnModel.saveModel st = (Ok tt, st') →
  ∃ tag model threshold scalar,
    self st !! "model_type" = Some (VStr tag) ∧
    self st !! "model" = Some model ∧
    self st !! "threshold" = Some threshold ∧
    self st !! "scalar" = Some scalar ∧
    let file_name :=
      tag ++ "Model_" ++ strftime_Ymd_HMS (localtime (tick st)) ++ ".joblib" in
    trace st' = (trace st ++
      [EJoblibDump
         (<["model" := model]> (<["threshold" := threshold]>
          (<["model_type" := VStr tag]> (<["scalar" := scalar]> ∅))))
         file_name;
       EPrint "Model saved to {}" [VStr file_name]])%list.
Proof.
  unfold SklearnModel.saveModel. intros Hrun.
  apply bind_ok in Hrun as (ts & st1 & E & Hrun).
  rewrite strftime_run in E. injection E as <- <-.
  inv_bind Hrun. inv_bind Hrun as mt Emt. inv_bind Hrun as tag Etag.
  inv_bind Hrun. inv_bind Hrun as m Em. inv_bind Hrun as thr Ethr.
  inv_bind Hrun as mt' Emt'. inv_bind Hrun as sc Esc. inv_bind Hrun.
  injection Hrun as <-. cbn [trace]. rewrite <- app_assoc.
  by exists tag, m, thr, sc.
Qed.

Lemma checkpoint_fields (model threshold model_type scalar : Val) :
  dom (<["model" := model]> (<["threshold" := threshold]>
       (<["model_type" := model_type]> (<["scalar" := scalar]> (∅ : gmap string Val)))))
  = ({["model"; "threshold"; "model_type"; "scalar"]} : gset string).
Proof. rewrite !dom_insert_L, dom_empty_L. set_solver. Qed.
End SaveModel.

(** *** The scaler through a run *)

Section Scaler.
Context `{Collaborators}.
Variables scalar train_file : option Val.

Lemma keeps_of_assigns K (P : Event → Prop) {A} (m : M A) :
  assigns K P m →
  untouched K "scalar" = true → untouched K "train_file" = true →
  (∀ e, P e → resamples_with scalar train_file e) →
  keeps_scaler scalar train_file m.
Proof.
  intros Hm Hs Hf HP st r st' Hsc Htf Hrun.
  destruct (Hm _ _ _ Hrun) as [F (new & T & Hnew)].
  rewrite !F by done. split; [done|]. split; [done|].
  exists new. split; [done|]. by eapply Forall_impl.
Qed.

Lemma keeps_bind {A B} (m : M A) (k : A → M B) :
  keeps_scaler scalar train_file m →
  (∀ a, (∃ st st', self st !! "scalar" = scalar ∧
                   self st !! "train_file" = train_file ∧
                   m st = (Ok a, st')) →
        keeps_scaler scalar train_file (k a)) →
  keeps_scaler scalar train_file (bind m k).
Proof.
  intros Hm Hk st r st' Hsc Htf. unfold bind.
  destruct (m st) as [[a|e] st1] eqn:E; intros Hrun.
  - destruct (Hm _ _ _ Hsc Htf E) as (S1 & F1 & n1 & T1 & P1).
    destruct (Hk a ltac:(eauto) _ _ _ S1 F1 Hrun) as (S2 & F2 & n2 & T2 & P2).
    split; [done|]. split; [done|].
    exists (n1 ++ n2)%list. rewrite T2, T1, app_assoc.
    split; [done|]. by apply Forall_app_2.
  - injection Hrun as <- <-. by apply (Hm _ _ _ Hsc Htf E).
Qed.

Lemma keeps_for_each {A} (l : list A) (body : A → M unit) :
  (∀ x, keeps_scaler scalar train_file (body x)) →
  keeps_scaler scalar train_file (for_each l body).
Proof.
  intros Hb. induction l as [|x l IH]; simpl.
  - apply (keeps_of_assigns [] no_event); [apply assigns_ret|done..].
  - apply keeps_bind; [apply Hb|]. intros _ _. apply IH.
Qed.

Lemma keeps_quiet K (P : Event → Prop) {A} (m : M A) :
  assigns K P m →
  untouched K "scalar" = true → untouched K "train_file" = true →
  (∀ e, P e → match e with ENewDataset _ _ _ _ => False | _ => True end) →
  keeps_scaler scalar train_file m.
Proof.
  intros Hm Hs Hf HP. apply (keeps_of_assigns K P); try done.
  intros e He. specialize (HP e He). by destruct e.
Qed.

Lemma keeps_resample f sc :
  train_file = Some (VStr f) → scalar = Some (VScaler sc) →
  keeps_scaler scalar train_file (new_DatasetReader f (Some true) (Some sc)).
Proof.
  intros Hf Hs st r st' Hsc Htf. rewrite new_DatasetReader_run.
  intros [= <- <-]. cbn [self trace]. split; [done|]. split; [done|].
  eexists. split; [done|]. constructor; [|constructor].
  simpl. split; [done|]. split; [done|]. by exists sc.
Qed.

Lemma keeps_epoch t : keeps_scaler scalar train_file (TorchModel.epoch t).
Proof.
  unfold TorchModel.epoch.
  apply keeps_bind; [by apply (keeps_quiet [] is_print);
                       [assigns_auto|..]; try done; by intros []|].
  intros _ _.
  apply keeps_bind; [by apply (keeps_quiet train_attrs is_iteration);
                       [apply assigns_train|..]; try done; by intros []|].
  intros _ _.
  apply keeps_bind; [by apply (keeps_quiet [] no_event); [assigns_auto|..]|].
  intros tl _.
  apply keeps_bind; [by apply (keeps_quiet [] is_print);
                       [assigns_auto|..]; try done; by intros []|].
  intros _ _.
  apply keeps_bind; [by apply (keeps_quiet [] no_event); [assigns_auto|..]|].
  intros tf (st0 & st0' & _ & Htf & Hget).
  apply getattr_ok in Hget as [Hget _]. rewrite Htf in Hget.
  apply keeps_bind; [by apply (keeps_quiet [] no_event); [assigns_auto|..]|].
  intros csv (st1 & st1' & _ & _ & Hcast). apply lift_ok in Hcast as [Hcast _].
  apply as_str_ok in Hcast. subst tf.
  apply keeps_bind; [by apply (keeps_quiet [] no_event); [assigns_auto|..]|].
  intros sc (st2 & st2' & Hsc & _ & Hget2).
  apply getattr_ok in Hget2 as [Hget2 _]. rewrite Hsc in Hget2.
  apply keeps_bind; [by apply (keeps_quiet [] no_event); [assigns_auto|..]|].
  intros s (st3 & st3' & _ & _ & Hcast). apply lift_ok in Hcast as [Hcast _].
  apply as_scaler_ok in Hcast. subst sc.
  apply keeps_bind; [by apply keeps_resample|]. intros d _.
  apply (keeps_quiet (["train_dataset"; "train_loader"; "cms"]
                      ++ test_attrs ++ save_attrs)
                     is_iteration_or_save); try done; [|by intros []].
  assigns_auto.
  - apply (assigns_mono test_attrs _ is_iteration); [apply assigns_test|done|].
    by intros [].
  - apply (assigns_mono save_attrs _ is_iteration_or_save);
      [apply assigns_saveModel|done..].
Qed.

Lemma keeps_commenceTraining :
  keeps_scaler scalar train_file TorchModel.commenceTraining.
Proof.
  unfold TorchModel.commenceTraining.
  apply keeps_bind; [by apply (keeps_quiet ["cms"] no_event); [assigns_auto|..]|].
  intros _ _.
  apply keeps_bind; [by apply (keeps_quiet [] no_event); [assigns_auto|..]|].
  intros e _.
  apply keeps_bind; [by apply (keeps_quiet [] no_event); [assigns_auto|..]|].
  intros n _.
  apply keeps_bind; [apply keeps_for_each, keeps_epoch|]. intros _ _.
  apply (keeps_quiet [] is_plot); try done; [|by intros []].
  assigns_auto.
Qed.
End Scaler.

(** *** One epoch, and the loop *)

Section Epochs.
Context `{Collaborators}.

Lemma torch_train_ok st st' :
  TorchModel.train st = (Ok tt, st') →
  ∃ l loss,
    self st !! "train_loader" = Some (VLoader l) ∧
    trace st' = (trace st ++ [EIterate l])%list ∧
    self st' !! "train_loss" = Some (VFloat loss).
Proof.
  unfold TorchModel.train. intros Hrun.
  inv_bind Hrun as m Em. inv_bind Hrun as net Enet.
  inv_bind Hrun. inv_bind Hrun.
  inv_bind Hrun as tl El. inv_bind Hrun as l Eld.
  apply bind_ok in Hrun as (bs & st1 & Eit & Hrun).
  match type of Eit with iterate _ ?s = _ =>
    destruct (iterate_run l s) as (st1' & Eit' & Hs1 & Ht1) end.
  rewrite Eit' in Eit. injection Eit as <- <-. cbn [self tick trace] in *.
  apply bind_ok in Hrun as ([] & st2 & Eloop & Hrun).
  pose proof (assigns_for_each train_attrs no_event _ _ assigns_train_batch
                _ _ _ Eloop) as [Hframe _].
  pose proof (assigns_silent _ _ _ _ _
                (assigns_for_each train_attrs no_event _ _ assigns_train_batch)
                Eloop) as Htr.
  inv_bind Hrun as rl Erl. inv_bind Hrun as running_loss Ecast.
  inv_bind Hrun as tl' El'. rewrite Hframe, Hs1 in El' by done.
  rewrite !lookup_insert_ne in El' by done. rewrite El in El'.
  injection El' as <-.
  inv_bind Hrun as l' Eld'.
  destruct (len_loader l' =? 0); [done|]. injection Hrun as <-.
  exists l'. eexists. split; [done|]. cbn [self trace].
  rewrite Htr, Ht1. split; [done|]. by simplify_map_eq.
Qed.

Lemma assigns_epoch t :
  assigns loop_attrs (fun _ => True) (TorchModel.epoch t).
Proof.
  unfold TorchModel.epoch. assigns_auto.
  - apply (assigns_mono train_attrs _ is_iteration); [apply assigns_train|done..].
  - unfold new_DatasetReader. assigns_auto.
  - apply (assigns_mono test_attrs _ is_iteration); [apply assigns_test|done..].
  - apply (assigns_mono save_attrs _ is_iteration_or_save);
      [apply assigns_saveModel|done..].
Qed.

Lemma torch_epoch_ok t st st' :
  TorchModel.epoch t st = (Ok tt, st') →
  ∃ e n cms,
    trace st' = (trace st ++ epoch_events t e)%list ∧
    self st !! "train_loader" = Some (VLoader (trained_on e)) ∧
    self st !! "batch_size" = Some (VInt (Zpos n)) ∧
    self st !! "cms" = Some (VList cms) ∧
    epoch_of st e ∧
    self st' !! "train_loader" = Some (VLoader (mkLoader (resampled e) n true)) ∧
    self st' !! "cms" = Some (VList (cms ++ [VMatrix (recorded e)])).
Proof.
  unfold TorchModel.epoch. intros Hrun.
  inv_bind Hrun.
  apply bind_ok in Hrun as ([] & st1 & Etrain & Hrun).
  destruct (assigns_train _ _ _ Etrain) as [Ftrain _].
  apply torch_train_ok in Etrain as (l & loss & Hl & Ttrain & Hloss).
  cbn [self tick trace] in *.
  inv_bind Hrun as tl Etl. inv_bind Hrun.
  inv_bind Hrun as tf Etf. inv_bind Hrun as csv Ecsv.
  inv_bind Hrun as sc Esc. inv_bind Hrun as scalar Escalar.
  apply bind_ok in Hrun as (d & st2 & Enew & Hrun).
  rewrite new_DatasetReader_run in Enew. injection Enew as <- <-.
  cbn [self tick trace] in *.
  inv_bind Hrun. inv_bind Hrun as bs Ebs. inv_bind Hrun as n En.
  apply bind_ok in Hrun as (l2 & st3 & Eld & Hrun).
  unfold new_DataLoader in Eld. destruct n as [|n|n]; try done.
  injection Eld as <- <-.
  inv_bind Hrun.
  apply bind_ok in Hrun as ([] & st4 & Etest & Hrun).
  destruct (assigns_test _ _ _ Etest) as [Ftest _].
  apply torch_test_ok in Etest
    as (net & tl' & td & y_pred & cm & acc & _ & Htl & Htd & Ttest & _ & _ & _
        & Hcm & Hcm' & _ & _).
  cbn [self tick trace] in *.
  rewrite !lookup_insert_ne in Htl, Htd by done.
  apply bind_ok in Hrun as ([] & st5 & Esave & Hrun).
  destruct (assigns_saveModel _ _ _ Esave) as [Fsave _].
  apply torch_saveModel_ok in Esave
    as (tag & model & threshold & scalar' & _ & _ & _ & _ & Tsave).
  inv_bind Hrun as lv Elv. inv_bind Hrun as cms Ecms.
  inv_bind Hrun as cmv Ecmv. injection Hrun as <-.
  rewrite Fsave, Ftest in Elv by done. cbn [self] in Elv.
  rewrite !lookup_insert_ne in Elv by done.
  rewrite Fsave in Ecmv by done. rewrite Hcm' in Ecmv. injection Ecmv as <-.
  rewrite Ftrain in Etf, Esc, Ebs, Elv, Htl, Htd by done.
  eexists (mkEpoch l (VFloat loss) csv scalar _ tl' _ _ cm), n, cms.
  cbn [self tick trace trained_on resampled recorded].
  split_and!; try done.
  - rewrite Tsave, Ttest. cbn [trace]. rewrite Ttrain.
    unfold epoch_events. cbn [trained_on loss_printed csv_file_read
      scalar_passed resampled evaluated_on saved saved_as].
    by rewrite <- !app_assoc.
  - unfold epoch_of. cbn [csv_file_read scalar_passed evaluated_on recorded].
    split_and!; try done. by exists td, y_pred.
  - rewrite lookup_insert_ne by done. rewrite Fsave, Ftest by done.
    cbn [self]. by simplify_map_eq.
  - by simplify_map_eq.
Qed.

Lemma torch_loop_ok n : ∀ t st st' cms,
  for_each (seq t n) TorchModel.epoch st = (Ok tt, st') →
  self st !! "cms" = Some (VList cms) →
  ∃ logs,
    length logs = n ∧
    trace st' = (trace st ++ loop_events t logs)%list ∧
    self st' !! "cms" = Some (VList (cms ++ map (fun e => VMatrix (recorded e)) logs)) ∧
    Forall (epoch_of st) logs ∧
    chained (self st !! "train_loader") (self st !! "batch_size") logs ∧
    (∀ k, untouched loop_attrs k = true → self st' !! k = self st !! k).
Proof.
  induction n as [|n IH]; intros t st st' cms Hrun Hcms.
  - injection Hrun as <-. exists []. simpl. rewrite !app_nil_r.
    split_and!; done.
  - simpl in Hrun. apply bind_ok in Hrun as ([] & st1 & Hepoch & Hrun).
    destruct (assigns_epoch _ _ _ _ Hepoch) as [F1 _].
    apply torch_epoch_ok in Hepoch
      as (e & bs & cms' & T1 & Hl & Hbs & Hcms' & He & Hl1 & Hcms1).
    rewrite Hcms in Hcms'. injection Hcms' as <-.
    destruct (IH _ _ _ _ Hrun Hcms1) as (logs & Hlen & T & C & Hall & Hch & F).
    exists (e :: logs). simpl. split_and!.
    + by rewrite Hlen.
    + by rewrite T, T1, <- app_assoc.
    + by rewrite C, <- app_assoc.
    + constructor; [done|]. eapply Forall_impl; [exact Hall|].
      intros e' (Htf & Hsc & Htl & d & y_pred & Htd & Hcm).
      rewrite F1 in Htf, Hsc, Htl, Htd by done.
      split_and!; try done. by exists d, y_pred.
    + done.
    + exists bs. split; [done|]. rewrite Hl1 in Hch.
      by rewrite F1 in Hch by done.
    + intros k Hk. by rewrite F, F1.
Qed.

Lemma torch_commenceTraining_ok st st' :
  TorchModel.commenceTraining st = (Ok tt, st') →
  ∃ n titles logs,
    self st !! "epochs" = Some (VInt n) ∧
    self st !! "titles" = Some titles ∧
    length logs = Z.to_nat n ∧
    trace st' = (trace st ++ loop_events 0 logs
                 ++ [EPlotCM (VList (map (fun e => VMatrix (recorded e)) logs)) titles])%list ∧
    Forall (epoch_of st) logs ∧
    chained (self st !! "train_loader") (self st !! "batch_size") logs.
Proof.
  unfold TorchModel.commenceTraining. intros Hrun.
  inv_bind Hrun. inv_bind Hrun as ev Eev. inv_bind Hrun as n En.
  apply bind_ok in Hrun as ([] & st1 & Hloop & Hrun).
  apply (torch_loop_ok _ _ _ _ []) in Hloop
    as (logs & Hlen & T & C & Hall & Hch & F); [|by simplify_map_eq].
  cbn [self tick trace] in *.
  inv_bind Hrun as cms Ecms. inv_bind Hrun as titles Et.
  injection Hrun as <-. cbn [trace].
  rewrite F in Et by done. rewrite ?lookup_insert_ne in Et by done.
  rewrite ?lookup_insert_ne in Hch by done.
  exists n, titles, logs. split_and!; try done.
  - by rewrite T, <- app_assoc.
  - eapply Forall_impl; [exact Hall|].
    intros e' (Htf & Hsc & Htl & d & y_pred & Htd & Hcm).
    cbn [self] in Htf, Hsc, Htl, Htd.
    rewrite ?lookup_insert_ne in Htf, Hsc, Htl, Htd by done.
    unfold epoch_of. split_and!; try done. by exists d, y_pred.
Qed.
End Epochs.

Lemma run_result {A B} (p : A * B) (a : A) : fst p = a → p = (a, snd p).
Proof. destruct p. simpl. by intros ->. Qed.

(** Evaluates a closed run: its result, or one attribute after it. *)
Ltac evaluate :=
  lazymatch goal with
  | |- _ = (_, snd _) => apply run_result; vm_compute; reflexivity
  | |- _ = (fst _, snd _) => apply surjective_pairing
  | |- _ => vm_compute; reflexivity
  end.

Ltac binary_list :=
  unfold binary; repeat first [apply Forall_nil_2 | apply Forall_cons_2; [lia|]].

(** ** The claims *)



(** C4. On every fit/predict lifecycle instance whose [model] is still
    [None], [train()] raises the [ValueError] that says the model is not
    defined, and leaves the instance and the world exactly as they were. *)
Theorem train_without_model_is_refused `{Collaborators} (st : State) :
  self st !! "model" = Some VNone →
  SklearnModel.train st
  = (Raise (ValueError
       "Model not defined. Please set self.model in subclass before training."),
     st).
Proof. intros Hm. unfold SklearnModel.train. run. done. Qed.

Lemma train_without_model_is_refused_witness :
  self Toy.bare !! "model" = Some VNone ∧
  SklearnModel.train Toy.bare
  = (Raise (ValueError
       "Model not defined. Please set self.model in subclass before training."),
     Toy.bare).
Proof.
  assert (self Toy.bare !! "model" = Some VNone) as Hm by evaluate.
  split; [exact Hm|]. exact (train_without_model_is_refused Toy.bare Hm).
Defined.

(** C5 (as the code has it). The base [TorchModel.initModel] returns the
    [NotImplemented] constant as an ordinary value: the call ends normally,
    raises nothing and changes nothing. *)
Theorem initModel_returns_NotImplemented `{Collaborators} (st : State) :
  TorchModel.initModel st = (Ok VNotImplemented, st).
Proof. reflexivity. Qed.



(** C8. For fixed predicted probabilities, raising the threshold never
    increases the number of samples labelled positive. *)
Theorem raising_threshold_never_adds_positives
    (probs : list Q) (t1 t2 : Q) :
  (t1 <= t2)%Q →
  (count_positive (map (decide_label t2) probs)
   ≤ count_positive (map (decide_label t1) probs))%nat.
Proof.
  intros Hle. unfold count_positive.
  induction probs as [|p probs IH]; [done|]. cbn [map List.filter].
  destruct (Z.eqb_spec 1 (decide_label t2 p)) as [H2|H2].
  - symmetry in H2. apply decide_label_positive in H2.
    assert (decide_label t1 p = 1) as ->.
    { apply decide_label_positive. by eapply Qle_trans. }
    rewrite Z.eqb_refl. cbn [length]. lia.
  - destruct (1 =? decide_label t1 p); cbn [length]; lia.
Qed.

Lemma raising_threshold_never_adds_positives_witness :
  (count_positive (map (decide_label (3 # 4)) [1 # 4; 3 # 4; 1 # 2])
   ≤ count_positive (map (decide_label (1 # 2)) [1 # 4; 3 # 4; 1 # 2]))%nat.
Proof.
  apply (raising_threshold_never_adds_positives [1 # 4; 3 # 4; 1 # 2] (1 # 2) (3 # 4)).
  unfold Qle. simpl. lia.
Defined.

Lemma thresholding_is_at_or_above threshold probs :
  at_or_above_rule threshold probs (map (decide_label threshold) probs).
Proof.
  split; [apply length_map|]. intros i p Hp.
  change (map (decide_label threshold) probs) with (decide_label threshold <$> probs).
  rewrite list_lookup_fmap, Hp. simpl. rewrite <- decide_label_positive.
  split; [by intros [= ->]|by intros ->].
Qed.




(** C10. The accuracy line of both lifecycles indexes [cm[0,0]] and
    [cm[1,1]].  On binary labels the evaluation returns exactly when both
    classes occur among the actual labels and the predictions; when all of
    them are one class, the matrix stored is 1x1 and the evaluation ends
    with [IndexError] instead of an accuracy. *)
Theorem single_class_evaluation_fails `{Collaborators}
    (st : State) (r : Res unit) (st' : State) (y_true y_pred : list Z) :
  evaluation_run st r st' y_true y_pred →
  binary y_true → length y_true = length y_pred →
  (r = Ok tt ↔ 0 ∈ (y_true ++ y_pred)%list ∧ 1 ∈ (y_true ++ y_pred)%list) ∧
  (∀ c, Forall (eq c) y_true → Forall (eq c) y_pred → y_true ≠ [] →
        r = Raise IndexError ∧
        self st' !! "cm" = Some (VMatrix [[Z.of_nat (length y_true)]])).
Proof.
  intros Hrun Hbin Hlen.
  assert (binary y_pred ∧ r = outcome_of y_true y_pred ∧
          ∀ cm, confusion_matrix y_true y_pred = Ok cm →
                self st' !! "cm" = Some (VMatrix cm)) as (Hbp & -> & Hcm).
  { destruct Hrun as [dv net t thr l d Hd Hm Ht Hthr Hl Htd -> -> Hrun
                     | s e X Hs Hm HX Hy Hp Hrun].
    - destruct (torch_test_run st dv net t thr l d Hd Hm Ht Hthr Hl Htd)
        as (st1 & Hrun' & _ & Hcm).
      rewrite Hrun' in Hrun. injection Hrun as <- <-.
      split; [apply binary_predict_label|]. by split.
    - destruct (sklearn_test_run st s e X y_true y_pred Hs Hm HX Hy Hp)
        as (st1 & Hrun' & _ & Hcm).
      rewrite Hrun' in Hrun. injection Hrun as <- <-.
      split; [by eapply sklearn_predictions_binary|]. by split. }
  split; [by apply outcome_of_binary|].
  intros c Ht Hp Hne. split; [by eapply outcome_of_single_class|].
  apply Hcm. by apply (confusion_matrix_single_class _ _ c).
Qed.

Lemma single_class_evaluation_fails_witness :
  (TorchModel.test Toy.nn_frauds
   = (Raise IndexError, snd (TorchModel.test Toy.nn_frauds)) ∧
   self (snd (TorchModel.test Toy.nn_frauds)) !! "cm" = Some (VMatrix [[2]])) ∧
  (SklearnModel.test Toy.forest_frauds
   = (Raise IndexError, snd (SklearnModel.test Toy.forest_frauds)) ∧
   self (snd (SklearnModel.test Toy.forest_frauds)) !! "cm" = Some (VMatrix [[2]])).
Proof.
  split.
  - assert (evaluation_run Toy.nn_frauds (fst (TorchModel.test Toy.nn_frauds))
              (snd (TorchModel.test Toy.nn_frauds)) [1; 1] [1; 1]) as Hrun.
    { apply (@torch_evaluation Toy.collaborators Toy.nn_frauds _ _ _ _
               (VDevice "cpu") (0%Q) (VFloat (1 # 2)) (1 # 2)
               (@mkLoader Toy.collaborators
                  (mkDataset [[3 # 4]; [7 # 8]] [1; 1] 0%nat) 64 false)
               (mkDataset [[3 # 4]; [7 # 8]] [1; 1] 0%nat)); evaluate. }
    destruct (single_class_evaluation_fails _ _ _ _ _ Hrun
                ltac:(binary_list) eq_refl) as [_ Hfail].
    destruct (Hfail 1) as [Hr Hcm]; [by repeat constructor..|done|].
    split; [|exact Hcm]. rewrite <- Hr. apply surjective_pairing.
  - assert (evaluation_run Toy.forest_frauds (fst (SklearnModel.test Toy.forest_frauds))
              (snd (SklearnModel.test Toy.forest_frauds)) [1; 1] [1; 1]) as Hrun.
    { apply (sklearn_evaluation Toy.forest_frauds _ _ _ _ (VBool true) 1%nat
               [[3 # 4]; [7 # 8]]); try evaluate.
      exists [3 # 4; 7 # 8], (VFloat (1 # 2)), (1 # 2).
      split_and!; evaluate. }
    destruct (single_class_evaluation_fails _ _ _ _ _ Hrun
                ltac:(binary_list) eq_refl) as [_ Hfail].
    destruct (Hfail 1) as [Hr Hcm]; [by repeat constructor..|done|].
    split; [|exact Hcm]. rewrite <- Hr. apply surjective_pairing.
Defined.

(** C9. Every checkpoint [saveModel] writes is one record with exactly the
    fields [model], [threshold], [model_type] and [scalar], the first, second
    and last being the instance's own; its file is named
    [<model_type>Model_<YYYYMMDD_HHMMSS><ext>].  The gradient lifecycle
    stores the constant ["PyTorch"] as [model_type], whatever tag names the
    file, and writes a [.pth] file; the fit/predict lifecycle stores the
    instance's own tag and writes a [.joblib] file. *)
Theorem checkpoint_record_and_file_name `{Collaborators}
    (k : Lifecycle) (st st' : State) :
  saveModel_of k st = (Ok tt, st') →
  ∃ tag obj ts file_name,
    self st !! "model_type" = Some (VStr tag) ∧
    ts = strftime_Ymd_HMS (localtime (tick st)) ∧
    is_timestamp ts = true ∧
    dom obj = ({["model"; "threshold"; "model_type"; "scalar"]} : gset string) ∧
    obj !! "model" = self st !! "model" ∧
    obj !! "threshold" = self st !! "threshold" ∧
    obj !! "scalar" = self st !! "scalar" ∧
    match k with
    | Gradient =>
        file_name = tag ++ "Model_" ++ ts ++ ".pth" ∧
        obj !! "model_type" = Some (VStr "PyTorch") ∧
        trace st' = (trace st ++ [ETorchSave obj file_name])%list
    | FitPredict =>
        file_name = tag ++ "Model_" ++ ts ++ ".joblib" ∧
        obj !! "model_type" = Some (VStr tag) ∧
        trace st' = (trace st ++ [EJoblibDump obj file_name;
                                  EPrint "Model saved to {}" [VStr file_name]])%list
    end.
Proof.
  destruct k; simpl; intros Hrun.
  - apply torch_saveModel_ok in Hrun
      as (tag & model & threshold & scalar & Htag & Hm & Hthr & Hsc & Htrace).
    eexists tag, _, _, _. split; [done|]. split; [done|].
    split; [apply strftime_is_timestamp|]. split; [apply checkpoint_fields|].
    rewrite Hm, Hthr, Hsc. split_and!; try done; by simplify_map_eq.
  - apply sklearn_saveModel_ok in Hrun
      as (tag & model & threshold & scalar & Htag & Hm & Hthr & Hsc & Htrace).
    eexists tag, _, _, _. split; [done|]. split; [done|].
    split; [apply strftime_is_timestamp|]. split; [apply checkpoint_fields|].
    rewrite Hm, Hthr, Hsc. split_and!; try done; by simplify_map_eq.
Qed.

Lemma checkpoint_record_and_file_name_witness :
  (∃ tag obj ts file_name,
     self Toy.nn !! "model_type" = Some (VStr tag) ∧
     ts = strftime_Ymd_HMS (@localtime Toy.collaborators (tick Toy.nn)) ∧
     is_timestamp ts = true ∧
     dom obj = ({["model"; "threshold"; "model_type"; "scalar"]} : gset string) ∧
     obj !! "model" = self Toy.nn !! "model" ∧
     obj !! "threshold" = self Toy.nn !! "threshold" ∧
     obj !! "scalar" = self Toy.nn !! "scalar" ∧
     file_name = tag ++ "Model_" ++ ts ++ ".pth" ∧
     obj !! "model_type" = Some (VStr "PyTorch") ∧
     trace (snd (TorchModel.saveModel Toy.nn))
     = (trace Toy.nn ++ [ETorchSave obj file_name])%list) ∧
  (∃ tag obj ts file_name,
     self Toy.forest !! "model_type" = Some (VStr tag) ∧
     ts = strftime_Ymd_HMS (@localtime Toy.collaborators (tick Toy.forest)) ∧
     is_timestamp ts = true ∧
     dom obj = ({["model"; "threshold"; "model_type"; "scalar"]} : gset string) ∧
     obj !! "model" = self Toy.forest !! "model" ∧
     obj !! "threshold" = self Toy.forest !! "threshold" ∧
     obj !! "scalar" = self Toy.forest !! "scalar" ∧
     file_name = tag ++ "Model_" ++ ts ++ ".joblib" ∧
     obj !! "model_type" = Some (VStr tag) ∧
     trace (snd (SklearnModel.saveModel Toy.forest))
     = (trace Toy.forest ++ [EJoblibDump obj file_name;
                             EPrint "Model saved to {}" [VStr file_name]])%list).
Proof.
  split.
  - apply (checkpoint_record_and_file_name Gradient Toy.nn
             (snd (TorchModel.saveModel Toy.nn))).
    apply run_result. vm_compute. reflexivity.
  - apply (checkpoint_record_and_file_name FitPredict Toy.forest
             (snd (SklearnModel.saveModel Toy.forest))).
    apply run_result. vm_compute. reflexivity.
Defined.






(** * Further properties of the lifecycles *)

Section TorchEdges.
Context `{Collaborators}.

(** X1. With [epochs] zero or negative the loop body never runs:
    [commenceTraining] resets [cms], trains nothing, constructs nothing,
    saves nothing, and hands [plotCM] an empty list. *)
Theorem no_epochs_plots_an_empty_list (st : State) (n : Z) (titles : Val) :
  self st !! "epochs" = Some (VInt n) → n ≤ 0 →
  self st !! "titles" = Some titles →
  TorchModel.commenceTraining st
  = (Ok tt, mkState (<["cms" := VList []]> (self st)) (tick st)
                    (trace st ++ [EPlotCM (VList []) titles])).
Proof.
  intros He Hn Ht. unfold TorchModel.commenceTraining. run.
  replace (Z.to_nat n) with 0%nat by lia. cbn [seq for_each]. run. done.
Qed.

(** X2. A [TorchModel] that no subclass has set up cannot train: after
    construction and a call of the base [initModel] (which returns
    normally), [commenceTraining] ends with [AttributeError] on [epochs],
    having reset [cms] and done nothing else; the only datasets read are
    the two of the constructor.  The statement is for a training file
    with at least one row: over an empty dataset torch refuses to build
    the shuffling loader of the constructor. *)
Theorem bare_torch_model_has_no_epochs
    (train_file test_file : string) (batch_size : positive) (threshold : Q)
    (st0 : State) :
  let d0 := read_dataset train_file (Some true) None (tick st0) in
  let d1 := read_dataset test_file None (Some (getScalar d0)) (S (tick st0)) in
  let run := (construct (TorchModel.__init__ train_file test_file
                           (Zpos batch_size) threshold);;;
              TorchModel.initModel;;;
              TorchModel.commenceTraining) st0 in
  rows d0 ≠ [] →
  fst run = Raise (AttributeError "epochs") ∧
  self (snd run) !! "cms" = Some (VList []) ∧
  trace (snd run)
  = (trace st0 ++ [ENewDataset train_file (Some true) None d0;
                   ENewDataset test_file None (Some (getScalar d0)) d1])%list.
Proof.
  cbv zeta. intros _.
  unfold construct, TorchModel.__init__, TorchModel.initModel,
    TorchModel.commenceTraining. run.
  rewrite !new_DatasetReader_run. run. unfold new_DataLoader. run.
  rewrite !new_DatasetReader_run. run.
  rewrite lookup_empty.
  cbn [fst snd self trace]. simplify_map_eq. by rewrite <- app_assoc.
Qed.
End TorchEdges.

Section SklearnRuns.
Context `{Collaborators}.

Lemma assigns_sklearn_train : assigns ["model"] no_event SklearnModel.train.
Proof.
  unfold SklearnModel.train. apply assigns_bind; [apply assigns_getattr|].
  intros m. destruct m; assigns_auto.
Qed.

Lemma assigns_sklearn_test :
  assigns ["y_pred"; "cm"; "accuracy"] no_event SklearnModel.test.
Proof.
  unfold SklearnModel.test. apply assigns_bind; [apply assigns_getattr|].
  intros s. apply assigns_bind; [destruct (truthy s)|intros ?]; assigns_auto.
Qed.

Lemma sklearn_train_ok st st' :
  SklearnModel.train st = (Ok tt, st') →
  ∃ e X y,
    self st !! "model" = Some (VEstimator e) ∧
    self st !! "X_train" = Some (VFeatures X) ∧
    self st !! "y_train" = Some (VLabels y) ∧
    st' = mkState (<["model" := VEstimator (fit e X y)]> (self st))
                  (tick st) (trace st).
Proof.
  unfold SklearnModel.train. intros Hrun.
  inv_bind Hrun as m Em.
  destruct m; try done;
    apply bind_ok in Hrun as (e' & st1 & Ecast & Hrun);
    apply lift_ok in Ecast as [Ecast ->]; try done.
  injection Ecast as <-.
  inv_bind Hrun as Xv EX. inv_bind Hrun as X EX'.
  inv_bind Hrun as yv Ey. inv_bind Hrun as y Ey'.
  injection Hrun as <-. by exists e, X, y.
Qed.

(** X3. [SklearnModel.commenceTraining] on an instance whose [model] is
    still [None] prints that training starts and then fails with the
    [ValueError] of [train]: nothing is evaluated, nothing is plotted and
    no attribute changes. *)
Theorem commenceTraining_without_model_stops_at_train (st : State) :
  self st !! "model" = Some VNone →
  SklearnModel.commenceTraining st
  = (Raise (ValueError
       "Model not defined. Please set self.model in subclass before training."),
     mkState (self st) (tick st) (trace st ++ [EPrint "Training model..." []])).
Proof.
  intros Hm. unfold SklearnModel.commenceTraining, SklearnModel.train. run. done.
Qed.

Lemma sklearn_commenceTraining_ok (st st' : State) :
  SklearnModel.commenceTraining st = (Ok tt, st') →
  ∃ e X y s X_test y_test y_pred cm acc titles,
    self st !! "model" = Some (VEstimator e) ∧
    self st !! "X_train" = Some (VFeatures X) ∧
    self st !! "y_train" = Some (VLabels y) ∧
    self st !! "supervised" = Some s ∧
    self st !! "X_test" = Some (VFeatures X_test) ∧
    self st !! "y_test" = Some (VLabels y_test) ∧
    self st !! "titles" = Some titles ∧
    self st' !! "model" = Some (VEstimator (fit e X y)) ∧
    sklearn_predictions s (fit e X y) X_test y_pred st ∧
    self st' !! "y_pred" = Some (VLabels y_pred) ∧
    confusion_matrix y_test y_pred = Ok cm ∧
    accuracy_of cm = Ok acc ∧
    trace st' = (trace st ++
      [EPrint "Training model..." []; EPrint "Testing model..." [];
       EPrint "Accuracy: {:.2f}%" [VFloat (acc * 100)%Q];
       EPlotCM (VList [VMatrix cm]) titles])%list.
Proof.
  unfold SklearnModel.commenceTraining. intros Hrun.
  inv_bind Hrun.
  apply bind_ok in Hrun as ([] & st1 & Etrain & Hrun).
  apply sklearn_train_ok in Etrain as (e & X & y & Hm & HX & Hy & ->).
  cbn [self tick trace] in *.
  inv_bind Hrun.
  apply bind_ok in Hrun as ([] & st2 & Etest & Hrun).
  destruct (assigns_sklearn_test _ _ _ Etest) as [F _].
  apply sklearn_test_ok in Etest
    as (s & e' & X_test & y_test & y_pred & cm & acc & Hs & Hm' & HXt & Hyt
        & Hp & Hyp & Hcm & Hcm' & Hacc & Hacc' & Htr).
  cbn [self tick trace] in *.
  rewrite lookup_insert_eq in Hm'. injection Hm' as <-.
  rewrite !lookup_insert_ne in Hs, HXt, Hyt by done.
  inv_bind Hrun as av Ea. inv_bind Hrun as acc' Ea'.
  inv_bind Hrun. inv_bind Hrun as cmv Ecmv. inv_bind Hrun as titles Et.
  injection Hrun as <-. cbn [self trace].
  rewrite F in Et by done. rewrite lookup_insert_ne in Et by done.
  exists e, X, y, s, X_test, y_test, y_pred, cm, acc, titles.
  split_and!; try done.
  - rewrite F by done. by simplify_map_eq.
  - unfold sklearn_predictions in *. destruct (truthy s); [|done].
    destruct Hp as (probs & t & thr & Hc & Ht & Hthr & ->).
    cbn [self] in Ht. rewrite lookup_insert_ne in Ht by done.
    by exists probs, t, thr.
  - rewrite Htr. by rewrite <- !app_assoc.
Qed.

(** X4. A [SklearnModel.commenceTraining] that returns has fitted the
    model on the training data first and evaluated the fitted model
    afterwards: the predictions are those of [fit model X_train y_train];
    it printed the accuracy times 100 and handed [plotCM] the one
    confusion matrix of that evaluation together with [titles]. *)
Theorem commenceTraining_evaluates_the_fitted_model (st st' : State) :
  SklearnModel.commenceTraining st = (Ok tt, st') →
  ∃ e X y s X_test y_test y_pred cm acc titles,
    self st !! "model" = Some (VEstimator e) ∧
    self st !! "X_train" = Some (VFeatures X) ∧
    self st !! "y_train" = Some (VLabels y) ∧
    self st !! "supervised" = Some s ∧
    self st !! "X_test" = Some (VFeatures X_test) ∧
    self st !! "y_test" = Some (VLabels y_test) ∧
    self st !! "titles" = Some titles ∧
    self st' !! "model" = Some (VEstimator (fit e X y)) ∧
    sklearn_predictions s (fit e X y) X_test y_pred st ∧
    self st' !! "y_pred" = Some (VLabels y_pred) ∧
    confusion_matrix y_test y_pred = Ok cm ∧
    accuracy_of cm = Ok acc ∧
    trace st' = (trace st ++
      [EPrint "Training model..." []; EPrint "Testing model..." [];
       EPrint "Accuracy: {:.2f}%" [VFloat (acc * 100)%Q];
       EPlotCM (VList [VMatrix cm]) titles])%list.
Proof. apply sklearn_commenceTraining_ok. Qed.
End SklearnRuns.

Section SklearnEdges.
Context `{Collaborators}.

Lemma column_raises_only_IndexError j proba e :
  SklearnModel.column j proba = Raise e → e = IndexError.
Proof.
  induction proba as [|row rest IH]; simpl; [done|].
  destruct (row !! j); [|by intros [= <-]].
  destruct (SklearnModel.column j rest); [done|].
  intros [= <-]. by apply IH.
Qed.

Lemma column_short_row j proba :
  Exists (fun row => (length row ≤ j)%nat) proba →
  SklearnModel.column j proba = Raise IndexError.
Proof.
  induction 1 as [row rest Hshort | row rest _ IH]; simpl.
  - by rewrite (lookup_ge_None_2 row j).
  - rewrite IH. by destruct (row !! j).
Qed.

Lemma column_full_rows j proba :
  Forall (fun row => (j < length row)%nat) proba →
  ∃ col, SklearnModel.column j proba = Ok col ∧ length col = length proba.
Proof.
  induction 1 as [|row rest Hrow _ (col & IH & Hlen)]; simpl.
  - by exists [].
  - destruct (lookup_lt_is_Some_2 row j Hrow) as [q ->]. rewrite IH.
    exists (q :: col). by rewrite <- Hlen.
Qed.


Lemma saveModel_raise (k : Lifecycle) (st st' : State) (e : Exn) :
  saveModel_of k st = (Raise e, st') →
  trace st' = trace st ∧
  ((e = TypeError ∧
    ∃ v, self st !! "model_type" = Some v ∧ ∀ s, v ≠ VStr s) ∨
   ∃ name, e = AttributeError name ∧ self st !! name = None ∧
           name ∈ ["model_type"; "model"; "threshold"; "scalar"]).
Proof.
  destruct k; simpl;
    unfold TorchModel.saveModel, SklearnModel.saveModel;
    rewrite (bind_run _ _ _ _ _ (strftime_run st)); run.
  - destruct (self st !! "model_type") as [mt|] eqn:Hmt; run;
      [|intros [= <- <-]; split; [done|]; right; exists "model_type";
        split_and!; [done|done|set_solver]].
    destruct mt; run;
      try (intros [= <- <-]; split; [done|]; left; split; [done|];
           eexists; split; [reflexivity|done]).
    destruct (self st !! "model") as [m|] eqn:Hm; run;
      [|intros [= <- <-]; split; [done|]; right; exists "model";
        split_and!; [done|done|set_solver]].
    destruct (self st !! "threshold") as [t|] eqn:Ht; run;
      [|intros [= <- <-]; split; [done|]; right; exists "threshold";
        split_and!; [done|done|set_solver]].
    destruct (self st !! "scalar") as [sc|] eqn:Hsc; run;
      [done|intros [= <- <-]; split; [done|]; right; exists "scalar";
        split_and!; [done|done|set_solver]].
  - destruct (self st !! "model_type") as [mt|] eqn:Hmt; run;
      [|intros [= <- <-]; split; [done|]; right; exists "model_type";
        split_and!; [done|done|set_solver]].
    destruct mt; run;
      try (intros [= <- <-]; split; [done|]; left; split; [done|];
           eexists; split; [reflexivity|done]).
    destruct (self st !! "model") as [m|] eqn:Hm; run;
      [|intros [= <- <-]; split; [done|]; right; exists "model";
        split_and!; [done|done|set_solver]].
    destruct (self st !! "threshold") as [t|] eqn:Ht; run;
      [|intros [= <- <-]; split; [done|]; right; exists "threshold";
        split_and!; [done|done|set_solver]].
    destruct (self st !! "scalar") as [sc|] eqn:Hsc; run;
      [done|intros [= <- <-]; split; [done|]; right; exists "scalar";
        split_and!; [done|done|set_solver]].
Qed.

(** X6. [saveModel] writes a checkpoint only when it returns: in either
    lifecycle, on an instance whose [model_type] is a string when it is
    set, a call that ends with an exception has added nothing to the
    trace (no file is written, nothing is printed), and the exception is
    the [AttributeError] of one of the four attributes the method reads,
    which is missing. *)
Theorem failed_saveModel_writes_nothing (k : Lifecycle) (st st' : State)
    (e : Exn) :
  (∀ v, self st !! "model_type" = Some v → ∃ s, v = VStr s) →
  saveModel_of k st = (Raise e, st') →
  trace st' = trace st ∧
  ∃ name, e = AttributeError name ∧ self st !! name = None ∧
          name ∈ ["model_type"; "model"; "threshold"; "scalar"].
Proof.
  intros Hstr Hrun.
  destruct (saveModel_raise k st st' e Hrun) as [Htr [[_ (v & Hv & Hno)]|Hattr]].
  - destruct (Hstr v Hv) as [s ->]. by destruct (Hno s).
  - done.
Qed.
End SklearnEdges.

Section Main.
Context `{Collaborators}.

(** The instance [RandomForestModel(train_file, test_file, threshold)]. *)
Lemma RandomForestModel_new train_file test_file threshold st0 :
  let d0 := read_dataset train_file (Some true) None (tick st0) in
  let d1 := read_dataset test_file None (Some (getScalar d0)) (S (tick st0)) in
  ∃ attrs,
    construct (RandomForestModel.__init__ train_file test_file threshold) st0
    = (Ok tt, mkState attrs (S (S (tick st0)))
                (trace st0 ++ [ENewDataset train_file (Some true) None d0;
                               ENewDataset test_file None (Some (getScalar d0)) d1])) ∧
    attrs !! "model" = Some (VEstimator RandomForestClassifier) ∧
    attrs !! "model_type" = Some (VStr "RandomForest") ∧
    attrs !! "threshold" = Some (VFloat threshold) ∧
    attrs !! "supervised" = Some (VBool true) ∧
    attrs !! "scalar" = Some (VScaler (getScalar d0)) ∧
    attrs !! "titles" = Some (VList [VStr "Random Forest Confusion Matrix"]) ∧
    attrs !! "X_train" = Some (VFeatures (features d0)) ∧
    attrs !! "y_train" = Some (VLabels (target d0)) ∧
    attrs !! "X_test" = Some (VFeatures (features d1)) ∧
    attrs !! "y_test" = Some (VLabels (target d1)).
Proof.
  cbv zeta. unfold construct, RandomForestModel.__init__, SklearnModel.__init__.
  run. rewrite !new_DatasetReader_run. run.
  rewrite !new_DatasetReader_run. run. rewrite <- app_assoc.
  eexists. split; [done|]. split_and!; by simplify_map_eq.
Qed.

Lemma main_ok train_file test_file threshold st0 st' :
  main train_file test_file threshold st0 = (Ok tt, st') →
  let d0 := read_dataset train_file (Some true) None (tick st0) in
  let d1 := read_dataset test_file None (Some (getScalar d0)) (S (tick st0)) in
  let fitted := fit RandomForestClassifier (features d0) (target d0) in
  let file_name :=
    "RandomForest" ++ "Model_"
    ++ strftime_Ymd_HMS (localtime (S (S (tick st0)))) ++ ".joblib" in
  ∃ probs cm acc,
    SklearnModel.column 1 (predict_proba fitted (features d1)) = Ok probs ∧
    confusion_matrix (target d1) (map (decide_label threshold) probs) = Ok cm ∧
    accuracy_of cm = Ok acc ∧
    trace st' = (trace st0 ++
      [ENewDataset train_file (Some true) None d0;
       ENewDataset test_file None (Some (getScalar d0)) d1;
       EPrint "Training model..." []; EPrint "Testing model..." [];
       EPrint "Accuracy: {:.2f}%" [VFloat (acc * 100)%Q];
       EPlotCM (VList [VMatrix cm])
               (VList [VStr "Random Forest Confusion Matrix"]);
       EJoblibDump
         (<["model" := VEstimator fitted]>
            (<["threshold" := VFloat threshold]>
               (<["model_type" := VStr "RandomForest"]>
                  (<["scalar" := VScaler (getScalar d0)]> ∅))))
         file_name;
       EPrint "Model saved to {}" [VStr file_name]])%list.
Proof.
  cbv zeta. unfold main. intros Hrun.
  destruct (RandomForestModel_new train_file test_file threshold st0)
    as (attrs & Hnew & Hm & Hmt & Hthr & Hs & Hsc & Hti & HX & Hy & HXt & Hyt).
  rewrite (bind_run _ _ _ _ _ Hnew) in Hrun.
  apply bind_ok in Hrun as ([] & st1 & Hct & Hrun).
  pose proof Hct as Hct'.
  apply sklearn_commenceTraining_ok in Hct
    as (e & X & y & s & X_test & y_test & y_pred & cm & acc & titles
        & Hm' & HX' & Hy' & Hs' & HXt' & Hyt' & Hti' & Hm1 & Hp & _ & Hcm
        & Hacc & Htr).
  cbn [self tick trace] in *.
  rewrite Hm in Hm'. rewrite HX in HX'. rewrite Hy in Hy'. rewrite Hs in Hs'.
  rewrite HXt in HXt'. rewrite Hyt in Hyt'. rewrite Hti in Hti'.
  injection Hm' as <-. injection HX' as <-. injection Hy' as <-.
  injection Hs' as <-. injection HXt' as <-. injection Hyt' as <-.
  injection Hti' as <-.
  unfold sklearn_predictions in Hp. cbn [truthy self] in Hp.
  destruct Hp as (probs & t & thr & Hcol & Ht & Hcast & ->).
  rewrite Hthr in Ht. injection Ht as <-. injection Hcast as <-.
  assert (tick st1 = S (S (tick st0)) ∧
          ∀ k, k ≠ "model" → k ≠ "y_pred" → k ≠ "cm" → k ≠ "accuracy" →
               self st1 !! k = attrs !! k) as [Htick F].
  { clear -Hct'. unfold SklearnModel.commenceTraining in Hct'.
    inv_bind Hct'. apply bind_ok in Hct' as ([] & s1 & Etrain & Hct').
    apply sklearn_train_ok in Etrain as (e & X & y & _ & _ & _ & ->).
    inv_bind Hct'. apply bind_ok in Hct' as ([] & s2 & Etest & Hct').
    destruct (assigns_sklearn_test _ _ _ Etest) as [F _].
    assert (tick s2 = S (S (tick st0))) as Htick.
    { clear -Etest. unfold SklearnModel.test in Etest.
      inv_bind Etest. apply bind_ok in Etest as ([] & s3 & Eb & Etest).
      assert (tick s3 = S (S (tick st0))) as <-.
      { destruct (truthy a); repeat inv_bind Eb; by injection Eb as <-. }
      repeat inv_bind Etest. by injection Etest as <-. }
    repeat inv_bind Hct'. injection Hct' as <-. cbn [self tick].
    split; [done|]. intros k ? ? ? ?.
    rewrite F; [cbn [self]; by rewrite lookup_insert_ne|].
    unfold untouched. cbn [forallb].
    by repeat (rewrite (proj2 (String.eqb_neq _ _)) by done). }
  apply sklearn_saveModel_ok in Hrun
    as (tag & model & thr' & sc & Htag & Hmod & Hthr' & Hsc' & Hsave).
  rewrite F, Hmt in Htag by done. injection Htag as <-.
  rewrite Hm1 in Hmod. injection Hmod as <-.
  rewrite F, Hthr in Hthr' by done. injection Hthr' as <-.
  rewrite F, Hsc in Hsc' by done. injection Hsc' as <-.
  cbv zeta in Hsave. rewrite Htick in Hsave.
  exists probs, cm, acc.
  split; [exact Hcol|]. split; [exact Hcm|]. split; [exact Hacc|].
  rewrite Hsave, Htr, <- !app_assoc. reflexivity.
Qed.
End Main.

Section MainRuns.
Context `{Collaborators}.

Lemma assigns_sklearn_commenceTraining :
  assigns ["model"; "y_pred"; "cm"; "accuracy"] not_a_checkpoint
          SklearnModel.commenceTraining.
Proof.
  unfold SklearnModel.commenceTraining. assigns_auto.
  - apply (assigns_mono ["model"] _ no_event);
      [apply assigns_sklearn_train|done|by intros ? []].
  - apply (assigns_mono ["y_pred"; "cm"; "accuracy"] _ no_event);
      [apply assigns_sklearn_test|done|by intros ? []].
Qed.

(** X7. A run of [main] that returns has, in this order, read the
    training file (undersampled, fitting the scaler) and the test file
    (with that scaler), fitted the random forest on the training data,
    evaluated the fitted forest at the given threshold, printed the
    accuracy, plotted the one confusion matrix, and written one
    checkpoint [RandomForestModel_<time>.joblib] that holds the fitted
    forest, the given threshold, the tag ["RandomForest"] and the
    training scaler. *)
Theorem main_trains_evaluates_and_saves train_file test_file threshold
    (st0 st' : State) :
  main train_file test_file threshold st0 = (Ok tt, st') →
  let d0 := read_dataset train_file (Some true) None (tick st0) in
  let d1 := read_dataset test_file None (Some (getScalar d0)) (S (tick st0)) in
  let fitted := fit RandomForestClassifier (features d0) (target d0) in
  let file_name :=
    "RandomForest" ++ "Model_"
    ++ strftime_Ymd_HMS (localtime (S (S (tick st0)))) ++ ".joblib" in
  ∃ probs cm acc,
    SklearnModel.column 1 (predict_proba fitted (features d1)) = Ok probs ∧
    confusion_matrix (target d1) (map (decide_label threshold) probs) = Ok cm ∧
    accuracy_of cm = Ok acc ∧
    trace st' = (trace st0 ++
      [ENewDataset train_file (Some true) None d0;
       ENewDataset test_file None (Some (getScalar d0)) d1;
       EPrint "Training model..." []; EPrint "Testing model..." [];
       EPrint "Accuracy: {:.2f}%" [VFloat (acc * 100)%Q];
       EPlotCM (VList [VMatrix cm])
               (VList [VStr "Random Forest Confusion Matrix"]);
       EJoblibDump
         (<["model" := VEstimator fitted]>
            (<["threshold" := VFloat threshold]>
               (<["model_type" := VStr "RandomForest"]>
                  (<["scalar" := VScaler (getScalar d0)]> ∅))))
         file_name;
       EPrint "Model saved to {}" [VStr file_name]])%list.
Proof. apply main_ok. Qed.

End MainRuns.

(** *** The confusion matrix in general *)

Lemma count_cell_cons t p y_true y_pred a b :
  count_cell (t :: y_true) (p :: y_pred) a b
  = (if (t =? a) && (p =? b) then 1 else 0) + count_cell y_true y_pred a b.
Proof.
  unfold count_cell. simpl. destruct ((t =? a) && (p =? b)); simpl; lia.
Qed.

Lemma sum_indicator (labels : list Z) (x : Z) :
  NoDup labels → x ∈ labels →
  foldr Z.add 0 (map (fun a => if x =? a then 1 else 0) labels) = 1.
Proof.
  induction 1 as [|a labels Hnotin Hnd IH]; intros Hin; [by apply elem_of_nil in Hin|].
  simpl. destruct (Z.eqb_spec x a) as [->|Hne].
  - assert (foldr Z.add 0 (map (fun b => if a =? b then 1 else 0) labels) = 0) as ->; [|done].
    clear -Hnotin. induction labels as [|b labels IH]; [done|]. simpl.
    destruct (Z.eqb_spec a b) as [->|_]; [set_solver|]. rewrite IH; [done|set_solver].
  - rewrite IH; [done|set_solver].
Qed.

Lemma sum_zero (labels : list Z) (f : Z → Z) :
  (∀ a, f a = 0) → foldr Z.add 0 (map f labels) = 0.
Proof. intros Hf. induction labels as [|a l IH]; simpl; [done|]. by rewrite Hf, IH. Qed.

Lemma sum_add (labels : list Z) (f g : Z → Z) :
  foldr Z.add 0 (map (fun a => f a + g a) labels)
  = foldr Z.add 0 (map f labels) + foldr Z.add 0 (map g labels).
Proof. induction labels as [|a l IH]; simpl; [done|]. rewrite IH. lia. Qed.

Lemma grid_total (labels : list Z) (y_true y_pred : list Z) :
  NoDup labels → length y_true = length y_pred →
  (∀ x, x ∈ y_true → x ∈ labels) → (∀ x, x ∈ y_pred → x ∈ labels) →
  foldr Z.add 0
    (map (fun a => foldr Z.add 0 (map (fun p => count_cell y_true y_pred a p) labels))
         labels)
  = Z.of_nat (length y_true).
Proof.
  intros Hnd. revert y_pred.
  induction y_true as [|t y_true IH]; intros [|p y_pred] Hlen Ht Hp; try done.
  - simpl. apply sum_zero. intros a. by apply sum_zero.
  - injection Hlen as Hlen.
    rewrite (map_ext _ (fun a =>
               foldr Z.add 0 (map (fun b => if (t =? a) && (p =? b) then 1 else 0) labels)
               + foldr Z.add 0 (map (fun b => count_cell y_true y_pred a b) labels))).
    2:{ intros a. rewrite <- sum_add. f_equal. apply map_ext. intros b.
        apply count_cell_cons. }
    rewrite sum_add. rewrite (IH y_pred Hlen); [|set_solver..].
    assert (foldr Z.add 0
              (map (fun a => foldr Z.add 0
                 (map (fun b => if (t =? a) && (p =? b) then 1 else 0) labels)) labels)
            = 1) as ->.
    { rewrite (map_ext _ (fun a => if t =? a then 1 else 0)).
      - apply sum_indicator; [done|]. apply Ht. set_solver.
      - intros a. destruct (t =? a); simpl.
        + apply sum_indicator; [done|]. apply Hp. set_solver.
        + by apply sum_zero. }
    simpl length. lia.
Qed.

Lemma matrix_total (labels : list Z) (y_true y_pred : list Z) :
  NoDup labels → length y_true = length y_pred →
  (∀ x, x ∈ y_true → x ∈ labels) → (∀ x, x ∈ y_pred → x ∈ labels) →
  cm_sum (map (fun a => map (fun p => count_cell y_true y_pred a p) labels) labels)
  = Z.of_nat (length y_true).
Proof.
  intros. unfold cm_sum. rewrite map_map. by apply grid_total.
Qed.

Lemma sorted_lt_NoDup (l : list Z) : StronglySorted Z.lt l → NoDup l.
Proof.
  induction 1 as [|x l _ IH Hall]; constructor; [|done].
  intros Hin. rewrite Forall_forall in Hall. specialize (Hall _ Hin). lia.
Qed.

(** X9. Whatever the classes, [confusion_matrix] is square, with one row
    and one column per distinct label, and its cells add up to the number
    of samples; so the denominator [cm.sum()] of the accuracy is the
    number of test samples, and is zero only for an empty test set. *)
Theorem confusion_matrix_total_any_classes (y_true y_pred : list Z)
    (cm : list (list Z)) :
  confusion_matrix y_true y_pred = Ok cm →
  let k := length (unique_labels y_true y_pred) in
  length cm = k ∧ Forall (fun row => length row = k) cm ∧
  cm_sum cm = Z.of_nat (length y_true) ∧
  length y_pred = length y_true.
Proof.
  intros Hcm. pose proof (confusion_matrix_lengths _ _ _ Hcm) as Hlen.
  unfold confusion_matrix in Hcm. rewrite Hlen, Nat.eqb_refl in Hcm.
  injection Hcm as <-. cbv zeta. split_and!.
  - by rewrite length_map.
  - apply Forall_forall. intros row Hrow.
    apply list_elem_of_fmap in Hrow as (a & -> & _). by rewrite length_map.
  - apply matrix_total; try done.
    + apply sorted_lt_NoDup, unique_labels_sorted.
    + intros x Hx. apply elem_of_unique_labels. set_solver.
    + intros x Hx. apply elem_of_unique_labels. set_solver.
  - done.
Qed.

(** *** File names and the clock *)

Lemma digit_inj a b : 0 ≤ a < 10 → 0 ≤ b < 10 → digit a = digit b → a = b.
Proof.
  intros Ha Hb Heq. apply (f_equal nat_of_ascii) in Heq. unfold digit in Heq.
  rewrite !nat_ascii_embedding in Heq by lia. lia.
Qed.

Lemma digit_mod_inj a b : digit (a mod 10) = digit (b mod 10) → a mod 10 = b mod 10.
Proof. apply digit_inj; by apply Z.mod_pos_bound. Qed.

Lemma append_inj_l (s a b : string) : s ++ a = s ++ b → a = b.
Proof. induction s as [|c s IH]; simpl; [done|]. intros [= Heq]. by apply IH. Qed.

Lemma two_digits_inj a b :
  0 ≤ a < 100 → 0 ≤ b < 100 →
  (a / 10) mod 10 = (b / 10) mod 10 → a mod 10 = b mod 10 → a = b.
Proof. intros. Z.div_mod_to_equations. lia. Qed.

Lemma four_digits_inj a b :
  0 ≤ a < 10000 → 0 ≤ b < 10000 →
  (a / 10 / 10 / 10) mod 10 = (b / 10 / 10 / 10) mod 10 →
  (a / 10 / 10) mod 10 = (b / 10 / 10) mod 10 →
  (a / 10) mod 10 = (b / 10) mod 10 → a mod 10 = b mod 10 → a = b.
Proof. intros. Z.div_mod_to_equations. lia. Qed.

(** X10. Two checkpoints of one model type and one lifecycle get the same
    file name exactly when they are saved within the same clock second:
    the name separates saves of different seconds and nothing else, so a
    second save within the second goes to the same file. *)
Theorem checkpoint_names_differ_by_second (tag ext : string)
    (t1 t2 : Z * Z * Z * Z * Z * Z) :
  valid_time t1 → valid_time t2 →
  tag ++ "Model_" ++ strftime_Ymd_HMS t1 ++ ext
  = tag ++ "Model_" ++ strftime_Ymd_HMS t2 ++ ext ↔ t1 = t2.
Proof.
  intros H1 H2. split; [|by intros ->].
  intros Heq. apply append_inj_l in Heq. apply (append_inj_l "Model_") in Heq.
  destruct t1 as [[[[[y1 mo1] d1] h1] mi1] s1].
  destruct t2 as [[[[[y2 mo2] d2] h2] mi2] s2].
  unfold valid_time in H1, H2. unfold strftime_Ymd_HMS in Heq.
  cbv beta iota delta [decimal String.append] in Heq.
  injection Heq as Ey4 Ey3 Ey2 Ey1 Emo2 Emo1 Ed2 Ed1 Eh2 Eh1 Emi2 Emi1 Es2 Es1.
  apply digit_mod_inj in Ey4, Ey3, Ey2, Ey1, Emo2, Emo1, Ed2, Ed1, Eh2, Eh1,
    Emi2, Emi1, Es2, Es1.
  rewrite (four_digits_inj y1 y2), (two_digits_inj mo1 mo2),
    (two_digits_inj d1 d2), (two_digits_inj h1 h2), (two_digits_inj mi1 mi2),
    (two_digits_inj s1 s2); try done; lia.
Qed.

(** *** One epoch of training *)

Section TorchTrain.
Context `{Collaborators}.

Lemma train_loop_run bs : ∀ st dv f o net running,
  self st !! "device" = Some dv →
  self st !! "loss_fn" = Some (VLossFn f) →
  self st !! "optimizer" = Some (VOptimizer o) →
  self st !! "model" = Some (VNet net) →
  self st !! "running_loss" = Some (VFloat running) →
  ∃ st',
    for_each bs TorchModel.train_batch st = (Ok tt, st') ∧
    self st' !! "optimizer" = Some (VOptimizer (train_pass f bs o net running).1.1) ∧
    self st' !! "model" = Some (VNet (train_pass f bs o net running).1.2) ∧
    self st' !! "running_loss" = Some (VFloat (train_pass f bs o net running).2).
Proof.
  induction bs as [|[X y] bs IH]; intros st dv f o net running Hd Hf Ho Hm Hr.
  - by eexists.
  - cbn [for_each train_pass]. unfold TorchModel.train_batch at 1. run.
    destruct (backward_step f o net X y) as [o' net'] eqn:Hstep. run.
    match goal with |- context [for_each bs _ ?s] =>
      destruct (IH s dv f o' net' (running + loss_value f (map (forward net) X) y)%Q)
        as (st' & Hloop & Ho' & Hm' & Hr') end;
      try (cbn [self]; by simplify_map_eq).
    rewrite Hloop. by exists st'.
Qed.

Lemma len_loader_pos l : rows (dataset l) ≠ [] → 0 < len_loader l.
Proof.
  intros Hne. unfold len_loader.
  assert (0 < length (rows (dataset l)))%nat by (destruct (rows (dataset l)); simpl; [done|lia]).
  apply Z.div_str_pos. lia.
Qed.

Lemma len_loader_empty l : rows (dataset l) = [] → len_loader l = 0.
Proof.
  intros Hne. unfold len_loader. rewrite Hne. simpl length.
  apply Z.div_small. lia.
Qed.

Lemma torch_train_run st dv f o net l :
  self st !! "device" = Some dv →
  self st !! "loss_fn" = Some (VLossFn f) →
  self st !! "optimizer" = Some (VOptimizer o) →
  self st !! "model" = Some (VNet net) →
  self st !! "train_loader" = Some (VLoader l) →
  let bs := map unzip_batch (batches (batch_size l) (visit_order l (tick st))) in
  let after := train_pass f bs o (set_training true net) 0 in
  ∃ st',
    TorchModel.train st
    = (if len_loader l =? 0 then Raise ZeroDivisionError else Ok tt, st') ∧
    trace st' = (trace st ++ [EIterate l])%list ∧
    self st' !! "optimizer" = Some (VOptimizer after.1.1) ∧
    self st' !! "model" = Some (VNet after.1.2) ∧
    self st' !! "running_loss" = Some (VFloat after.2) ∧
    self st' !! "train_loss"
    = (if len_loader l =? 0 then self st !! "train_loss"
       else Some (VFloat (after.2 / inject_Z (len_loader l))%Q)).
Proof.
  intros Hd Hf Ho Hm Hl bs after. unfold TorchModel.train. run.
  match goal with |- context [iterate l ?s] =>
    destruct (iterate_run l s) as (st1 & Eit & Hs1 & Ht1); rewrite Eit end.
  cbn [self tick trace] in *. fold bs.
  destruct (train_loop_run bs st1 dv f o (set_training true net) 0)
    as (st2 & Eloop & Ho2 & Hm2 & Hr2); try (rewrite Hs1; by simplify_map_eq).
  rewrite Eloop. fold after in Ho2, Hm2, Hr2.
  assert (assigns ["pred"; "loss"; "optimizer"; "model"; "running_loss"]
                  no_event (for_each bs TorchModel.train_batch)) as Hloop.
  { apply assigns_for_each. intros [X y]. unfold TorchModel.train_batch.
    assigns_auto. destruct (backward_step _ _ _ _ _). assigns_auto. }
  destruct (Hloop _ _ _ Eloop) as [Hframe _].
  pose proof (assigns_silent _ _ _ _ _ Hloop Eloop) as Htr.
  assert (self st2 !! "train_loader" = Some (VLoader l)) as Hl2.
  { rewrite Hframe, Hs1 by done. by simplify_map_eq. }
  assert (self st2 !! "train_loss" = self st !! "train_loss") as Htl.
  { rewrite Hframe, Hs1 by done. by simplify_map_eq. }
  run. destruct (len_loader l =? 0); run.
  - eexists. split; [done|]. cbn [self trace]. rewrite Htr, Ht1.
    by split_and!.
  - eexists. split; [done|]. cbn [self trace]. rewrite Htr, Ht1.
    split_and!; try done; by simplify_map_eq.
Qed.


End TorchTrain.

(** *** Evaluation and the batch size *)

Section TorchEvaluation.
Context `{Collaborators}.

Lemma torch_test_results st dv net t threshold l d :
  self st !! "device" = Some dv →
  self st !! "model" = Some (VNet net) →
  self st !! "threshold" = Some t → as_float t = Ok threshold →
  self st !! "test_loader" = Some (VLoader l) →
  self st !! "test_dataset" = Some (VDataset d) →
  let y_pred := map (predict_label (set_training false net) threshold)
                    (map fst (visit_order l (tick st))) in
  ∃ st',
    TorchModel.test st = (outcome_of (target d) y_pred, st') ∧
    self st' !! "y_pred" = Some (VLabels y_pred) ∧
    self st' !! "cm"
    = match confusion_matrix (target d) y_pred with
      | Ok cm => Some (VMatrix cm)
      | Raise _ => self st !! "cm"
      end ∧
    self st' !! "accuracy"
    = match confusion_matrix (target d) y_pred with
      | Ok cm => match accuracy_of cm with
                 | Ok acc => Some (VFloat acc)
                 | Raise _ => self st !! "accuracy"
                 end
      | Raise _ => self st !! "accuracy"
      end.
Proof.
  intros Hd Hm Ht Hthr Hl Htd y_pred. unfold TorchModel.test. run.
  match goal with |- context [iterate l ?s] =>
    destruct (iterate_run l s) as (st1 & Eit & Hs1 & Ht1); rewrite Eit end.
  cbn [self tick trace] in *.
  destruct (test_loop_total
              (map unzip_batch (batches (batch_size l) (visit_order l (tick st))))
              st1 dv (set_training false net) t threshold [])
    as (st2 & Eloop); try (rewrite Hs1; by simplify_map_eq); [done|].
  rewrite Eloop.
  destruct (assigns_test_loop _ _ _ _ Eloop) as [Hframe _].
  destruct (test_loop_ok _ _ _ (set_training false net) [] Eloop)
    as (preds & Hy & _ & Hpreds); try (rewrite Hs1; by simplify_map_eq).
  rewrite (Hpreds t threshold), batches_features in Hy;
    [|rewrite Hs1; by simplify_map_eq|done].
  assert (self st2 !! "test_dataset" = Some (VDataset d)) as Htd2.
  { rewrite Hframe, Hs1 by done. by simplify_map_eq. }
  assert (self st2 !! "cm" = self st !! "cm") as Hcm2.
  { rewrite Hframe, Hs1 by done. by simplify_map_eq. }
  assert (self st2 !! "accuracy" = self st !! "accuracy") as Hacc2.
  { rewrite Hframe, Hs1 by done. by simplify_map_eq. }
  simpl app in Hy. fold y_pred in Hy. run.
  unfold outcome_of.
  destruct (confusion_matrix (target d) y_pred) as [cm|e]; run.
  - destruct (accuracy_of cm); run; eexists; (split; [done|]);
      cbn [self]; by simplify_map_eq.
  - eexists. split; [done|]. by split_and!.
Qed.

(** X13. The batch size of the test loader does not change an
    evaluation: on an instance that has all [test] reads, with a test
    loader that does not shuffle, replacing the loader by one of any
    other batch size over the same dataset gives the same outcome, the
    same predictions, the same confusion matrix and the same accuracy. *)
Theorem evaluation_ignores_the_batch_size (st : State) dv net t threshold l d
    (n : positive) :
  self st !! "device" = Some dv →
  self st !! "model" = Some (VNet net) →
  self st !! "threshold" = Some t → as_float t = Ok threshold →
  self st !! "test_loader" = Some (VLoader l) → shuffle l = false →
  self st !! "test_dataset" = Some (VDataset d) →
  let st2 := mkState (<["test_loader" := VLoader (mkLoader (dataset l) n false)]>
                        (self st)) (tick st) (trace st) in
  fst (TorchModel.test st2) = fst (TorchModel.test st) ∧
  ∀ k, k ∈ ["y_pred"; "cm"; "accuracy"] →
       self (snd (TorchModel.test st2)) !! k = self (snd (TorchModel.test st)) !! k.
Proof.
  intros Hd Hm Ht Hthr Hl Hsh Htd st2.
  destruct (torch_test_results st dv net t threshold l d Hd Hm Ht Hthr Hl Htd)
    as (st' & Hrun & Hy & Hcm & Hacc).
  destruct (torch_test_results st2 dv net t threshold
              (mkLoader (dataset l) n false) d)
    as (st2' & Hrun2 & Hy2 & Hcm2 & Hacc2);
    try (subst st2; cbn [self]; by simplify_map_eq).
  assert (visit_order (mkLoader (dataset l) n false) (tick st2)
          = visit_order l (tick st)) as Hsame.
  { unfold visit_order. cbn [shuffle dataset]. by rewrite Hsh. }
  cbv zeta in Hrun2, Hy2, Hcm2, Hacc2. rewrite Hsame in Hrun2, Hy2, Hcm2, Hacc2.
  rewrite Hrun, Hrun2. cbn [fst snd]. split; [done|].
  intros k Hk. subst st2. cbn [self] in Hcm2, Hacc2.
  rewrite !lookup_insert_ne in Hcm2, Hacc2 by done.
  repeat (apply elem_of_cons in Hk as [-> | Hk]); [congruence..|].
  by apply elem_of_nil in Hk.
Qed.

(** X14. Whatever their outcome, [train] assigns no attribute outside
    [model], [running_loss], [pred], [loss], [optimizer] and
    [train_loss], and [test] none outside [model], [y_pred], [outputs],
    [predicted], [cm] and [accuracy]: neither touches the threshold, the
    scaler, the datasets, the loaders or the recorded matrices, and all
    either adds to the trace is its pass over a loader. *)
Theorem train_and_test_keep_to_their_attributes :
  assigns train_attrs is_iteration TorchModel.train ∧
  assigns test_attrs is_iteration TorchModel.test.
Proof. split; [apply assigns_train|apply assigns_test]. Qed.
End TorchEvaluation.

(** *** The threshold and the cells of the matrix *)


Section Construction.
Context `{Collaborators}.

(** X16. Constructing a [TorchModel] with a batch size that is not
    positive fails when the training loader is built: the training file
    has been read, the test file never is, and neither [scalar] nor
    [threshold] is assigned. *)
Theorem construction_rejects_a_batch_size_below_one
    (train_file test_file : string) (batch_size : Z) (threshold : Q)
    (st0 : State) :
  batch_size ≤ 0 →
  let run := construct (TorchModel.__init__ train_file test_file
                          batch_size threshold) st0 in
  (∃ msg, fst run = Raise (ValueError msg)) ∧
  trace (snd run)
  = (trace st0 ++ [ENewDataset train_file (Some true) None
                     (read_dataset train_file (Some true) None (tick st0))])%list ∧
  self (snd run) !! "scalar" = None ∧
  self (snd run) !! "threshold" = None ∧
  self (snd run) !! "test_dataset" = None.
Proof.
  intros Hb. cbv zeta. unfold construct, TorchModel.__init__. run.
  rewrite !new_DatasetReader_run. run. unfold new_DataLoader.
  destruct batch_size as [|p|p]; try lia; run; cbn [fst snd self trace];
    (split; [by eexists|]); split_and!; by simplify_map_eq.
Qed.
End Construction.

(** *** Evaluating twice *)

Ltac rerun :=
  repeat first
    [ progress run
    | progress cbn [fst snd SklearnModel.as_estimator]
    | match goal with
      | H : self _ !! _ = None |- _ => rewrite H
      | H : _ = Ok _ |- _ => rewrite H
      | H : _ = Raise _ |- _ => rewrite H
      | H : truthy _ = _ |- _ => rewrite H
      end ].

Ltac next_case st :=
  match goal with
  | |- context [self st !! ?k] => destruct (self st !! k) eqn:?
  | |- context [SklearnModel.as_estimator ?n ?v] =>
      destruct (SklearnModel.as_estimator n v) eqn:?
  | |- context [as_features ?v] => destruct (as_features v) eqn:?
  | |- context [as_labels ?v] => destruct (as_labels v) eqn:?
  | |- context [as_float ?v] => destruct (as_float v) eqn:?
  | |- context [SklearnModel.column ?j ?p] => destruct (SklearnModel.column j p) eqn:?
  | |- context [confusion_matrix ?a ?b] => destruct (confusion_matrix a b) eqn:?
  | |- context [accuracy_of ?c] => destruct (accuracy_of c) eqn:?
  | |- context [truthy ?s] => destruct (truthy s) eqn:?
  end.

Section Repeat.
Context `{Collaborators}.

Lemma state_eq (s1 s2 : State) :
  self s1 = self s2 → tick s1 = tick s2 → trace s1 = trace s2 → s1 = s2.
Proof. destruct s1, s2. simpl. by intros -> -> ->. Qed.

(** X17. [SklearnModel.test] can be repeated: it reads nothing it
    assigns, so a second call right after the first ends the same way
    and leaves the instance, with its predictions, matrix and accuracy,
    exactly as the first call left it. *)
Theorem sklearn_test_is_repeatable (st : State) :
  SklearnModel.test (snd (SklearnModel.test st)) = SklearnModel.test st.
Proof.
  unfold SklearnModel.test.
  repeat (rerun; try reflexivity; next_case st).
  all: rerun; try reflexivity.
  all: f_equal; apply state_eq; cbn [self tick trace]; try reflexivity.
  all: apply map_eq; intros k; rewrite !lookup_insert; by repeat case_decide.
Qed.
End Repeat.

(** *** The extra properties at work in the small world *)

#[local] Existing Instance Toy.collaborators.

Lemma no_epochs_plots_an_empty_list_witness :
  TorchModel.commenceTraining Trials.idle
  = (Ok tt, mkState (<["cms" := VList []]> (self Trials.idle)) (tick Trials.idle)
                    (trace Trials.idle
                     ++ [EPlotCM (VList []) (VList [VStr "Neural Network"])])).
Proof.
  apply (no_epochs_plots_an_empty_list Trials.idle 0); [evaluate|lia|evaluate].
Defined.

Lemma commenceTraining_without_model_stops_at_train_witness :
  SklearnModel.commenceTraining Toy.bare
  = (Raise (ValueError
       "Model not defined. Please set self.model in subclass before training."),
     mkState (self Toy.bare) (tick Toy.bare)
             (trace Toy.bare ++ [EPrint "Training model..." []])).
Proof. apply (commenceTraining_without_model_stops_at_train Toy.bare). evaluate. Defined.

Lemma commenceTraining_evaluates_the_fitted_model_witness :
  ∃ cm acc titles,
    self (snd (SklearnModel.commenceTraining Trials.sapling)) !! "model"
    = Some (@VEstimator Toy.collaborators 1%nat) ∧
    confusion_matrix [0; 1; 0] [0; 1; 1] = Ok cm ∧ accuracy_of cm = Ok acc ∧
    trace (snd (SklearnModel.commenceTraining Trials.sapling))
    = (trace Trials.sapling ++
       [EPrint "Training model..." []; EPrint "Testing model..." [];
        EPrint "Accuracy: {:.2f}%" [VFloat (acc * 100)%Q];
        EPlotCM (VList [VMatrix cm]) titles])%list.
Proof.
  destruct (commenceTraining_evaluates_the_fitted_model Trials.sapling
              (snd (SklearnModel.commenceTraining Trials.sapling)))
    as (e & X & y & s & X_test & y_test & y_pred & cm & acc & titles
        & Hm & HX & Hy & Hs & HXt & Hyt & Hti & Hm1 & Hp & Hyp & Hcm & Hacc & Htr).
  { evaluate. }
  assert (self (snd (SklearnModel.commenceTraining Trials.sapling)) !! "y_pred"
          = Some (VLabels [0; 1; 1])) as Hyp' by evaluate.
  assert (self Trials.sapling !! "y_test" = Some (VLabels [0; 1; 0])) as Hyt'
    by evaluate.
  assert (self (snd (SklearnModel.commenceTraining Trials.sapling)) !! "model"
          = Some (@VEstimator Toy.collaborators 1%nat)) as Hm1' by evaluate.
  rewrite Hyp' in Hyp. injection Hyp as <-.
  rewrite Hyt' in Hyt. injection Hyt as <-.
  exists cm, acc, titles. split; [exact Hm1'|]. split; [exact Hcm|].
  split; [exact Hacc|exact Htr].
Defined.


Lemma bare_torch_model_has_no_epochs_witness :
  fst ((construct (TorchModel.__init__ "train.csv" "test.csv" 64 (1 # 2));;;
        TorchModel.initModel;;;
        TorchModel.commenceTraining) Toy.boot)
  = Raise (AttributeError "epochs").
Proof.
  refine (proj1 (bare_torch_model_has_no_epochs "train.csv" "test.csv" 64 (1 # 2)
                   Toy.boot _)).
  vm_compute. discriminate.
Defined.

Lemma failed_saveModel_writes_nothing_witness :
  trace (snd (SklearnModel.saveModel Toy.bare)) = trace Toy.bare ∧
  ∃ name, AttributeError "model_type" = AttributeError name ∧
          self Toy.bare !! name = None ∧
          name ∈ ["model_type"; "model"; "threshold"; "scalar"].
Proof.
  apply (failed_saveModel_writes_nothing FitPredict Toy.bare
           (snd (SklearnModel.saveModel Toy.bare)) (AttributeError "model_type")).
  - intros v Hv.
    assert (self Toy.bare !! "model_type" = None) as E by evaluate.
    rewrite E in Hv. clear E. discriminate Hv.
  - apply run_result. vm_compute. reflexivity.
Defined.

Lemma main_trains_evaluates_and_saves_witness :
  ∃ probs cm acc,
    SklearnModel.column 1
      (predict_proba
         (fit RandomForestClassifier
            (features (read_dataset "train.csv" (Some true) None (tick Toy.boot)))
            (target (read_dataset "train.csv" (Some true) None (tick Toy.boot))))
         (features
            (read_dataset "test.csv" None
               (Some (getScalar (read_dataset "train.csv" (Some true) None
                                   (tick Toy.boot))))
               (S (tick Toy.boot))))) = Ok probs ∧
    confusion_matrix
      (target
         (read_dataset "test.csv" None
            (Some (getScalar (read_dataset "train.csv" (Some true) None
                                (tick Toy.boot))))
            (S (tick Toy.boot))))
      (map (decide_label (1 # 2)) probs) = Ok cm ∧
    accuracy_of cm = Ok acc.
Proof.
  destruct (main_trains_evaluates_and_saves "train.csv" "test.csv" (1 # 2) Toy.boot
              (snd (main "train.csv" "test.csv" (1 # 2) Toy.boot)))
    as (probs & cm & acc & Hp & Hcm & Hacc & _).
  { apply run_result. vm_compute. reflexivity. }
  by exists probs, cm, acc.
Defined.


Lemma confusion_matrix_total_any_classes_witness :
  length [[1; 0; 0]; [0; 1; 1]; [0; 0; 1]] = 3%nat ∧
  Forall (fun row => length row = 3%nat) [[1; 0; 0]; [0; 1; 1]; [0; 0; 1]] ∧
  cm_sum [[1; 0; 0]; [0; 1; 1]; [0; 0; 1]] = 4 ∧
  length [0; 1; 2; 2] = length [0; 1; 1; 2].
Proof.
  apply (confusion_matrix_total_any_classes [0; 1; 1; 2] [0; 1; 2; 2]).
  reflexivity.
Defined.

Lemma checkpoint_names_differ_by_second_witness :
  "RandomForest" ++ "Model_" ++ strftime_Ymd_HMS (2025, 5, 3, 2, 13, 50) ++ ".joblib"
  = "RandomForest" ++ "Model_" ++ strftime_Ymd_HMS (2025, 5, 3, 2, 13, 51) ++ ".joblib"
  ↔ (2025, 5, 3, 2, 13, 50) = (2025, 5, 3, 2, 13, 51).
Proof.
  apply (checkpoint_names_differ_by_second "RandomForest" ".joblib");
    unfold valid_time; lia.
Defined.



Lemma evaluation_ignores_the_batch_size_witness :
  fst (TorchModel.test
         (mkState (<["test_loader" :=
                       VLoader (@mkLoader Toy.collaborators
                                  (mkDataset [[1 # 4]; [3 # 4]; [1 # 2]] [0; 1; 0] 0%nat)
                                  1 false)]> (self Toy.nn))
                  (tick Toy.nn) (trace Toy.nn)))
  = fst (TorchModel.test Toy.nn).
Proof.
  refine (proj1 (evaluation_ignores_the_batch_size Toy.nn (VDevice "cpu") (0%Q)
                   (VFloat (1 # 2)) (1 # 2)
                   (@mkLoader Toy.collaborators
                      (mkDataset [[1 # 4]; [3 # 4]; [1 # 2]] [0; 1; 0] 0%nat)
                      64 false)
                   (mkDataset [[1 # 4]; [3 # 4]; [1 # 2]] [0; 1; 0] 0%nat)
                   1 _ _ _ _ _ _ _)); try evaluate; reflexivity.
Defined.


Lemma construction_rejects_a_batch_size_below_one_witness :
  ∃ msg,
    fst (construct (TorchModel.__init__ "train.csv" "test.csv" 0 (1 # 2)) Toy.boot)
    = Raise (ValueError msg).
Proof.
  refine (proj1 (construction_rejects_a_batch_size_below_one
                   "train.csv" "test.csv" 0 (1 # 2) Toy.boot _)).
  lia.
Defined.
